(** * Display formatting helpers of the ILS overlay: [ui/src/overridden/utils.js]

    A shallow embedding of the four helpers [renderCallNumber], [shelfLink],
    [shelfLinkComponent] and [getDisplayVal], over a small model of the
    JavaScript values they handle, and the properties of the helpers that the
    specification states. *)

From Stdlib Require Import ZArith List Bool Ascii String Lia.
From Stdlib Require Import DecimalString.
Import ListNotations.

Set Warnings "-register-all".

Local Open Scope list_scope.
Local Open Scope string_scope.

(** ** JavaScript values

    Records, identifier lists and the configuration table are plain data, so
    values are trees.  Objects and arrays carry the address they were allocated
    at: two objects are [===] exactly when they are the same allocation.  An
    object lists its own enumerable properties in enumeration order, each key
    once.  A number is an integer (within the safe range, where it prints in
    plain decimal); a string is the sequence of its code units. *)

Inductive value : Type :=
| VUndefined
| VNull
| VBool (b : bool)
| VNum (n : Z)
| VStr (s : string)
| VArr (addr : nat) (elems : list value)
| VObj (addr : nat) (fields : list (string * value)).

(** [v == null]: [v] is [null] or [undefined]. *)
Definition nullish (v : value) : bool :=
  match v with
  | VUndefined | VNull => true
  | _ => false
  end.

(** [ToBoolean]. *)
Definition truthy (v : value) : bool :=
  match v with
  | VUndefined | VNull => false
  | VBool b => b
  | VNum n => negb (Z.eqb n 0)
  | VStr s => negb (String.eqb s "")
  | VArr _ _ | VObj _ _ => true
  end.

(** [a === b]. *)
Definition strict_eq (a b : value) : bool :=
  match a, b with
  | VUndefined, VUndefined => true
  | VNull, VNull => true
  | VBool x, VBool y => Bool.eqb x y
  | VNum x, VNum y => Z.eqb x y
  | VStr x, VStr y => String.eqb x y
  | VArr x _, VArr y _ => Nat.eqb x y
  | VObj x _, VObj y _ => Nat.eqb x y
  | _, _ => false
  end.

(** Decimal text of a number, and of an array index. *)
Definition string_of_Z (n : Z) : string :=
  NilZero.string_of_int (Z.to_int n).

Definition string_of_nat (n : nat) : string :=
  NilZero.string_of_uint (Nat.to_uint n).

(** An array index is a key that is the canonical decimal text of a natural
    number. *)
Definition index_of_key (k : string) : option nat :=
  match NilZero.uint_of_string k with
  | Some u =>
      let n := Nat.of_uint u in
      if String.eqb (string_of_nat n) k then Some n else None
  | None => None
  end.

Fixpoint assoc (k : string) (fields : list (string * value)) : option value :=
  match fields with
  | [] => None
  | (k', v) :: rest => if String.eqb k k' then Some v else assoc k rest
  end.

Definition string_at (s : string) (i : nat) : value :=
  match String.get i s with
  | Some c => VStr (String c EmptyString)
  | None => VUndefined
  end.

(** [base[k]] for a [base] that is neither [null] nor [undefined]: own
    properties only.  None of the keys the helpers write out ([identifiers],
    [shelf], [title], [scheme], [value], [text]) is a member of a built-in
    prototype; a configuration field that is named after one ([constructor],
    say) is not looked up in the prototype here, so what is stated about a
    field that reads as [undefined] is stated up to that. *)
Definition getProp (base : value) (k : string) : value :=
  match base with
  | VObj _ fields =>
      match assoc k fields with Some v => v | None => VUndefined end
  | VArr _ elems =>
      if String.eqb k "length" then VNum (Z.of_nat (List.length elems))
      else match index_of_key k with
           | Some i => nth i elems VUndefined
           | None => VUndefined
           end
  | VStr s =>
      if String.eqb k "length" then VNum (Z.of_nat (String.length s))
      else match index_of_key k with
           | Some i => string_at s i
           | None => VUndefined
           end
  | _ => VUndefined
  end.

(** [k in Object(base)], on own properties.  [isKey] asks it only of keys
    that look like deep paths, which no member of a built-in prototype does. *)
Definition hasProperty (base : value) (k : string) : bool :=
  match base with
  | VObj _ fields =>
      match assoc k fields with Some _ => true | None => false end
  | VArr _ elems =>
      String.eqb k "length" ||
      match index_of_key k with
      | Some i => Nat.ltb i (List.length elems)
      | None => false
      end
  | VStr s =>
      String.eqb k "length" ||
      match index_of_key k with
      | Some i => Nat.ltb i (String.length s)
      | None => false
      end
  | _ => false
  end.

(** ** Conversion to text *)

Definition comma_join (parts : list string) : string := String.concat "," parts.

(** [ToString], as string interpolation and string [+] apply it.  An array
    prints as its elements joined by commas, [null] and [undefined] elements as
    the empty text; a plain object prints as [[object Object]].  The conversion
    is total here: an object that carries a [toString] of its own, on which the
    conversion throws, is taken up in the embedding over the heap
    ([Heap.ToString]). *)
Fixpoint ToString (v : value) : string :=
  match v with
  | VUndefined => "undefined"
  | VNull => "null"
  | VBool b => if b then "true" else "false"
  | VNum n => string_of_Z n
  | VStr s => s
  | VArr _ elems =>
      comma_join (map (fun e => if nullish e then "" else ToString e) elems)
  | VObj _ _ => "[object Object]"
  end.

Definition char (n : nat) : string := String (ascii_of_nat n) EmptyString.

Definition dquote : string := char 34.
Definition backslash : string := char 92.

Definition hex_digit (n : nat) : string :=
  match String.get n "0123456789abcdef" with
  | Some c => String c EmptyString
  | None => "0"
  end.

(** One code unit inside a JSON string literal. *)
Definition quote_char (c : ascii) : string :=
  let n := nat_of_ascii c in
  if Nat.eqb n 34 then backslash ++ dquote
  else if Nat.eqb n 92 then backslash ++ backslash
  else if Nat.eqb n 8 then backslash ++ "b"
  else if Nat.eqb n 12 then backslash ++ "f"
  else if Nat.eqb n 10 then backslash ++ "n"
  else if Nat.eqb n 13 then backslash ++ "r"
  else if Nat.eqb n 9 then backslash ++ "t"
  else if Nat.ltb n 32
       then backslash ++ "u00" ++ hex_digit (n / 16) ++ hex_digit (n mod 16)
  else String c EmptyString.

Fixpoint quote_chars (s : string) : string :=
  match s with
  | EmptyString => EmptyString
  | String c rest => quote_char c ++ quote_chars rest
  end.

Definition QuoteJSONString (s : string) : string :=
  dquote ++ quote_chars s ++ dquote.

(** [SerializeJSONProperty] of [JSON.stringify], without replacer or indent:
    [None] stands for [undefined].  An [undefined] array element is written
    [null]; an [undefined] property is left out. *)
Fixpoint SerializeJSONProperty (v : value) : option string :=
  match v with
  | VUndefined => None
  | VNull => Some "null"
  | VBool b => Some (if b then "true" else "false")
  | VNum n => Some (string_of_Z n)
  | VStr s => Some (QuoteJSONString s)
  | VArr _ elems =>
      Some ("[" ++
            comma_join
              (map (fun e => match SerializeJSONProperty e with
                             | Some s => s
                             | None => "null"
                             end) elems) ++
            "]")
  | VObj _ fields =>
      Some ("{" ++
            comma_join
              (flat_map (fun kv => match kv with
                                   | (k, x) =>
                                       match SerializeJSONProperty x with
                                       | Some s => [QuoteJSONString k ++ ":" ++ s]
                                       | None => []
                                       end
                                   end) fields) ++
            "}")
  end.

Definition JSON_stringify (v : value) : value :=
  match SerializeJSONProperty v with
  | Some s => VStr s
  | None => VUndefined
  end.

(** ** The world the helpers run in

    The helpers read one global, the host's configuration table
    [invenioConfig], and allocate objects; every call is a computation over the
    world that either completes with a value or throws. *)

Record world : Type := mkWorld {
  invenioConfig : value;
  next_addr : nat
}.

Inductive exn : Type :=
| TypeError (msg : string).

Inductive completion (A : Type) : Type :=
| Normal (a : A)
| Throw (e : exn).

Arguments Normal {A} a.
Arguments Throw {A} e.

Definition M (A : Type) : Type := world -> completion A * world.

Definition ret {A} (a : A) : M A := fun w => (Normal a, w).

Definition throw {A} (e : exn) : M A := fun w => (Throw e, w).

Definition bind {A B} (m : M A) (k : A -> M B) : M B :=
  fun w =>
    match m w with
    | (Normal a, w') => k a w'
    | (Throw e, w') => (Throw e, w')
    end.

Notation "x <- m ;; k" := (bind m (fun x => k))
  (at level 61, m at next level, right associativity).

(** The completion of a computation, and the world it leaves. *)
Definition eval {A} (m : M A) (w : world) : completion A := fst (m w).
Definition exec {A} (m : M A) (w : world) : world := snd (m w).

Definition alloc : M nat :=
  fun w => (Normal (next_addr w), mkWorld (invenioConfig w) (S (next_addr w))).

(** An array literal and an object literal. *)
Definition new_array (elems : list value) : M value :=
  a <- alloc ;; ret (VArr a elems).

Definition new_object (fields : list (string * value)) : M value :=
  a <- alloc ;; ret (VObj a fields).

Definition read_invenioConfig : M value :=
  fun w => (Normal (invenioConfig w), w).

Definition cannot_read (base : value) (k : string) : exn :=
  TypeError ("Cannot read properties of " ++ ToString base ++ " (reading '" ++ k ++ "')").

(** [callee] is the text of the expression that was called. *)
Definition not_a_function (callee : string) : exn :=
  TypeError (callee ++ " is not a function").

(** [base.k] *)
Definition member (base : value) (k : string) : M value :=
  if nullish base then throw (cannot_read base k) else ret (getProp base k).

(** ** Array.prototype.find *)

Fixpoint find_loop (predicate : value -> M value) (elems : list value) : M value :=
  match elems with
  | [] => ret VUndefined
  | e :: rest =>
      t <- predicate e ;;
      if truthy t then ret e else find_loop predicate rest
  end.

(** [recv.find(predicate)], where [callee] is the text of [recv.find] in the
    source: only an array has a [find] to call. *)
Definition call_find (callee : string) (recv : value) (predicate : value -> M value)
  : M value :=
  if nullish recv then throw (cannot_read recv "find")
  else match recv with
       | VArr _ elems => find_loop predicate elems
       | _ => throw (not_a_function callee)
       end.

(** ** lodash [get]

    A path that is not a single key is split by lodash's [stringToPath], after
    the test [reIsDeepProp]; both are regular-expression code of the library
    and are left abstract.  The keys the helpers pass literally are plain
    property names, which [isKey] accepts before either is consulted. *)

Class LodashPath : Type := {
  reIsDeepProp : string -> bool;
  stringToPath : string -> list string
}.

Definition is_word_char (c : ascii) : bool :=
  let n := nat_of_ascii c in
  (Nat.leb 48 n && Nat.leb n 57) || (Nat.leb 65 n && Nat.leb n 90) ||
  (Nat.leb 97 n && Nat.leb n 122) || Nat.eqb n 95.

(** [/^\w*$/] *)
Fixpoint reIsPlainProp (s : string) : bool :=
  match s with
  | EmptyString => true
  | String c rest => is_word_char c && reIsPlainProp rest
  end.

(** The walk of [baseGet]: [None] when the object ran out before the path. *)
Fixpoint baseGet_walk (object : value) (path : list string) : option value :=
  match path with
  | [] => Some object
  | k :: rest =>
      if nullish object then None else baseGet_walk (getProp object k) rest
  end.

Section Lodash.
Context {L : LodashPath}.

Definition isKey (k : string) (object : value) : bool :=
  reIsPlainProp k || negb (reIsDeepProp k) ||
  (negb (nullish object) && hasProperty object k).

Definition castPath (k : string) (object : value) : list string :=
  if isKey k object then [k] else stringToPath k.

Definition baseGet (object : value) (k : string) : value :=
  match castPath k object with
  | [] => VUndefined
  | path =>
      match baseGet_walk object path with
      | Some v => v
      | None => VUndefined
      end
  end.

(** [_get(object, path, defaultValue)] *)
Definition _get (object : value) (path : string) (defaultValue : value) : value :=
  let result := if nullish object then VUndefined else baseGet object path in
  if strict_eq result VUndefined then defaultValue else result.

End Lodash.

(** ** React elements

    What a piece of JSX evaluates to: an element with its type, props and
    children, or the value of an embedded expression. *)

Inductive jsx : Type :=
| JExpr (v : value)
| JElement (type : string) (props : list (string * value)) (children : list jsx).

Definition Fragment : string := "React.Fragment".


(** ** The helpers *)

Definition snvLink : jsx :=
  JElement "a"
    [("href", VStr "https://sis.web.cern.ch/search-and-read/online-resources/snv-connect");
     ("target", VStr "_blank");
     ("rel", VStr "noreferrer")]
    [JExpr (VStr "SNV-Connect")].

(** A destructured parameter [{ k = defaultValue }]: what [k] is bound to in
    the body, and the destructuring itself, which throws when there is no
    object to take apart. *)
Definition binding (options : value) (k : string) (defaultValue : value) : value :=
  let v := getProp options k in
  if strict_eq v VUndefined then defaultValue else v.

Definition destructure (options : value) (k : string) (defaultValue : value) : M value :=
  if nullish options
  then throw (TypeError ("Cannot destructure property '" ++ k ++ "' of '" ++
                         ToString options ++ "' as it is " ++ ToString options ++ "."))
  else ret (binding options k defaultValue).

Definition shelf_base (shelfNumber : value) : string :=
  "https://maps.web.cern.ch/?n=['SHELF " ++ ToString shelfNumber ++ "']".

Definition popup_parameter (popupContent : value) : string :=
  "&popupContent=" ++ ToString (JSON_stringify popupContent).

Definition iframe_parameters : string := "&showMenu=false&widgets=&scale=200".

Definition shelfLink (shelfNumber options : value) : M value :=
  popupContent <- destructure options "popupContent" VNull ;;
  iframe <- destructure options "iframe" (VBool false) ;;
  let shelfLink := shelf_base shelfNumber in
  let shelfLink :=
    if negb (strict_eq popupContent VNull)
    then shelfLink ++ popup_parameter popupContent
    else shelfLink in
  let shelfLink :=
    if truthy iframe then shelfLink ++ iframe_parameters else shelfLink in
  ret (VStr shelfLink).

(** The default parameter [iconName = "map pin"]. *)
Definition default_icon (iconName : value) : value :=
  if strict_eq iconName VUndefined then VStr "map pin" else iconName.

Section Helpers.
Context {L : LodashPath}.

Definition renderCallNumber (item : value) : M value :=
  empty <- new_array [] ;;
  let identifiers := _get item "identifiers" empty in
  if strict_eq identifiers VNull then ret VNull
  else
    callNumber <-
      call_find "identifiers.find" identifiers
        (fun identifier =>
           scheme <- member identifier "scheme" ;;
           ret (VBool (strict_eq scheme (VStr "CALL_NUMBER")))) ;;
    if truthy callNumber
    then v <- member callNumber "value" ;;
         ret (VStr ("(" ++ ToString v ++ ")"))
    else ret VNull.

(** The anchor of [shelfLinkComponent].  The [Icon] element carries, after
    the [name] it is given, the [as] of the component's default props. *)
Definition shelf_anchor (linkToShelf iconName shelfNumber : value) : jsx :=
  JElement "a"
    [("href", linkToShelf); ("target", VStr "_blank"); ("rel", VStr "noreferrer")]
    [JElement "Icon" [("name", iconName); ("as", VStr "i")] []; JExpr shelfNumber].

Definition shelfLinkComponent (item iconName : value) : M jsx :=
  let iconName := default_icon iconName in
  let shelfNumber := _get item "shelf" VUndefined in
  callNumber <- renderCallNumber item ;;
  title <- member item "title" ;;
  popupContent <- new_object [("Title", title); ("Call number", callNumber)] ;;
  options <- new_object [("popupContent", popupContent)] ;;
  linkToShelf <- shelfLink shelfNumber options ;;
  ret (JElement Fragment []
         [ (if truthy shelfNumber
            then shelf_anchor linkToShelf iconName shelfNumber
            else JExpr shelfNumber);
           JExpr (VStr " ");
           JExpr callNumber ]).

Definition getDisplayVal (configField : string) : value -> M value :=
  fun value =>
  config <- read_invenioConfig ;;
  entry <-
    call_find "_get(...).find" (_get config configField VUndefined)
      (fun entry =>
         v <- member entry "value" ;;
         ret (VBool (strict_eq v value))) ;;
  member entry "text".

End Helpers.

(** A path splitter for running the helpers: keys separated by dots. *)
Fixpoint split_dots (acc : string) (s : string) : list string :=
  match s with
  | EmptyString => [acc]
  | String c rest =>
      if Ascii.eqb c "."%char then acc :: split_dots "" rest
      else split_dots (acc ++ String c EmptyString) rest
  end.

Fixpoint has_dot (s : string) : bool :=
  match s with
  | EmptyString => false
  | String c rest => Ascii.eqb c "."%char || has_dot rest
  end.

Definition dotted : LodashPath :=
  {| reIsDeepProp := has_dot; stringToPath := split_dots "" |}.

Definition w0 (config : value) : world := mkWorld config 100.

(** ** The helpers over a heap of mutable objects

    JavaScript objects are mutable and shared: a record handed to a helper is
    a reference into the heap, and a callee could write through it.  This
    second embedding keeps the objects in a heap, with allocation and a write
    primitive, so that what a helper does to the objects it is given, and to
    the configuration table, is a statement about the heap before and after
    the call. *)

(** Recursion inside the built-ins ([join], [JSON.stringify]) is bounded by
    the engine's call stack. *)
Class Engine : Type := {
  stack_limit : nat
}.

Module Heap.

Inductive hvalue : Type :=
| Undefined
| Null
| Bool (b : bool)
| Num (n : Z)
| Str (s : string)
| Ref (l : nat).

Inductive object : Type :=
| Arr (elems : list hvalue)
| Obj (fields : list (string * hvalue)).

(** The object at location [l] is the [l]-th of the heap. *)
Definition heap : Type := list object.

Record state : Type := mkState {
  objects : heap;
  invenioConfig : hvalue
}.

Inductive error : Type :=
| TypeError (msg : string)
| RangeError (msg : string).

Inductive outcome (A : Type) : Type :=
| Returns (a : A)
| Throws (e : error).

Arguments Returns {A} a.
Arguments Throws {A} e.

Definition nullish (v : hvalue) : bool :=
  match v with
  | Undefined | Null => true
  | _ => false
  end.

Definition truthy (v : hvalue) : bool :=
  match v with
  | Undefined | Null => false
  | Bool b => b
  | Num n => negb (Z.eqb n 0)
  | Str s => negb (String.eqb s "")
  | Ref _ => true
  end.

Definition strict_eq (a b : hvalue) : bool :=
  match a, b with
  | Undefined, Undefined => true
  | Null, Null => true
  | Bool x, Bool y => Bool.eqb x y
  | Num x, Num y => Z.eqb x y
  | Str x, Str y => String.eqb x y
  | Ref x, Ref y => Nat.eqb x y
  | _, _ => false
  end.

Fixpoint assoc (k : string) (fields : list (string * hvalue)) : option hvalue :=
  match fields with
  | [] => None
  | (k', v) :: rest => if String.eqb k k' then Some v else assoc k rest
  end.

(** A location outside the heap, which no reference of a well-formed state
    is, reads as an object without properties. *)
Definition lookup (h : heap) (l : nat) : object := nth l h (Obj []).

Definition string_at (s : string) (i : nat) : hvalue :=
  match String.get i s with
  | Some c => Str (String c EmptyString)
  | None => Undefined
  end.

(** [base[k]] for a [base] that is neither [null] nor [undefined], on own
    properties. *)
Definition getProp (h : heap) (base : hvalue) (k : string) : hvalue :=
  match base with
  | Ref l =>
      match lookup h l with
      | Obj fields =>
          match assoc k fields with Some v => v | None => Undefined end
      | Arr elems =>
          if String.eqb k "length" then Num (Z.of_nat (List.length elems))
          else match index_of_key k with
               | Some i => nth i elems Undefined
               | None => Undefined
               end
      end
  | Str s =>
      if String.eqb k "length" then Num (Z.of_nat (String.length s))
      else match index_of_key k with
           | Some i => string_at s i
           | None => Undefined
           end
  | _ => Undefined
  end.

Definition hasProperty (h : heap) (base : hvalue) (k : string) : bool :=
  match base with
  | Ref l =>
      match lookup h l with
      | Obj fields =>
          match assoc k fields with Some _ => true | None => false end
      | Arr elems =>
          String.eqb k "length" ||
          match index_of_key k with
          | Some i => Nat.ltb i (List.length elems)
          | None => false
          end
      end
  | Str s =>
      String.eqb k "length" ||
      match index_of_key k with
      | Some i => Nat.ltb i (String.length s)
      | None => false
      end
  | _ => false
  end.

(** *** Conversion to text, reading the heap *)

Definition cannot_convert : error :=
  TypeError "Cannot convert object to primitive value".

Definition stack_overflow : error :=
  RangeError "Maximum call stack size exceeded".

Definition circular : error :=
  TypeError "Converting circular structure to JSON".

Fixpoint traverse {A B : Type} (f : A -> outcome B) (l : list A) : outcome (list B) :=
  match l with
  | [] => Returns []
  | a :: rest =>
      match f a with
      | Throws e => Throws e
      | Returns b =>
          match traverse f rest with
          | Throws e => Throws e
          | Returns bs => Returns (b :: bs)
          end
      end
  end.

(** [ToString].  A plain object prints as [[object Object]] unless it has a
    [toString] of its own, which in a heap of data is not callable: then the
    conversion throws.  An array prints as its elements joined by commas; an
    array met again while it is being joined prints as the empty text. *)
Fixpoint ToString (fuel : nat) (h : heap) (joining : list nat) (v : hvalue)
  : outcome string :=
  match v with
  | Undefined => Returns "undefined"
  | Null => Returns "null"
  | Bool b => Returns (if b then "true" else "false")
  | Num n => Returns (string_of_Z n)
  | Str s => Returns s
  | Ref l =>
      match lookup h l with
      | Obj fields =>
          match assoc "toString" fields with
          | Some _ => Throws cannot_convert
          | None => Returns "[object Object]"
          end
      | Arr elems =>
          if existsb (Nat.eqb l) joining then Returns ""
          else match fuel with
               | O => Throws stack_overflow
               | S fuel' =>
                   match traverse
                           (fun e => if nullish e then Returns ""
                                     else ToString fuel' h (l :: joining) e)
                           elems with
                   | Returns parts => Returns (comma_join parts)
                   | Throws e => Throws e
                   end
               end
      end
  end.

(** [SerializeJSONProperty]: [None] stands for [undefined]; an object met
    again below itself is a circular structure. *)
Fixpoint SerializeJSONProperty (fuel : nat) (h : heap) (stack : list nat) (v : hvalue)
  : outcome (option string) :=
  match v with
  | Undefined => Returns None
  | Null => Returns (Some "null")
  | Bool b => Returns (Some (if b then "true" else "false"))
  | Num n => Returns (Some (string_of_Z n))
  | Str s => Returns (Some (QuoteJSONString s))
  | Ref l =>
      if existsb (Nat.eqb l) stack then Throws circular
      else match fuel with
           | O => Throws stack_overflow
           | S fuel' =>
               match lookup h l with
               | Arr elems =>
                   match traverse
                           (fun e =>
                              match SerializeJSONProperty fuel' h (l :: stack) e with
                              | Returns (Some s) => Returns s
                              | Returns None => Returns "null"
                              | Throws x => Throws x
                              end)
                           elems with
                   | Returns parts => Returns (Some ("[" ++ comma_join parts ++ "]"))
                   | Throws x => Throws x
                   end
               | Obj fields =>
                   match traverse
                           (fun kv =>
                              match SerializeJSONProperty fuel' h (l :: stack) (snd kv) with
                              | Returns (Some s) =>
                                  Returns [QuoteJSONString (fst kv) ++ ":" ++ s]
                              | Returns None => Returns []
                              | Throws x => Throws x
                              end)
                           fields with
                   | Returns parts =>
                       Returns (Some ("{" ++ comma_join (List.concat parts) ++ "}"))
                   | Throws x => Throws x
                   end
               end
           end
  end.

(** *** Computations over the heap *)

Definition M (A : Type) : Type := state -> outcome A * state.

Definition ret {A} (a : A) : M A := fun st => (Returns a, st).

Definition throw {A} (e : error) : M A := fun st => (Throws e, st).

Definition bind {A B} (m : M A) (k : A -> M B) : M B :=
  fun st =>
    match m st with
    | (Returns a, st') => k a st'
    | (Throws e, st') => (Throws e, st')
    end.

Notation "'let*' x ':=' m 'in' k" := (bind m (fun x => k))
  (at level 10, x name, m at level 100, k at level 200).

Definition eval {A} (m : M A) (st : state) : outcome A := fst (m st).
Definition exec {A} (m : M A) (st : state) : state := snd (m st).

(** Reading the heap. *)
Definition read {A} (f : heap -> A) : M A :=
  fun st => (Returns (f (objects st)), st).

Definition attempt {A} (f : heap -> outcome A) : M A :=
  fun st => (f (objects st), st).

(** An object or array literal: a new object at the end of the heap. *)
Definition allocate (o : object) : M hvalue :=
  fun st => (Returns (Ref (List.length (objects st))),
             mkState (objects st ++ [o])%list (invenioConfig st)).

Fixpoint replace_nth (l : nat) (o : object) (h : heap) : heap :=
  match h, l with
  | [], _ => []
  | _ :: rest, O => o :: rest
  | x :: rest, S l' => x :: replace_nth l' o rest
  end.

(** The write primitive, on which assignment to a property or to an array
    element is built.  The helpers do not use it. *)
Definition store (l : nat) (o : object) : M unit :=
  fun st => (Returns tt, mkState (replace_nth l o (objects st)) (invenioConfig st)).

(** Assignment to the global. *)
Definition write_invenioConfig (v : hvalue) : M unit :=
  fun st => (Returns tt, mkState (objects st) v).

Definition read_invenioConfig : M hvalue :=
  fun st => (Returns (invenioConfig st), st).

Definition cannot_read (base : hvalue) (k : string) : error :=
  TypeError ("Cannot read properties of " ++
             (match base with Null => "null" | _ => "undefined" end) ++
             " (reading '" ++ k ++ "')").

Definition not_a_function (callee : string) : error :=
  TypeError (callee ++ " is not a function").

(** [base.k] *)
Definition member (base : hvalue) (k : string) : M hvalue :=
  if nullish base then throw (cannot_read base k)
  else read (fun h => getProp h base k).

Fixpoint find_loop (predicate : hvalue -> M hvalue) (elems : list hvalue) : M hvalue :=
  match elems with
  | [] => ret Undefined
  | e :: rest =>
      let* t := predicate e in
      if truthy t then ret e else find_loop predicate rest
  end.

(** The elements of [recv] when it is an array. *)
Definition array_elems (h : heap) (recv : hvalue) : option (list hvalue) :=
  match recv with
  | Ref l => match lookup h l with Arr elems => Some elems | Obj _ => None end
  | _ => None
  end.

(** [recv.find(predicate)] *)
Definition call_find (callee : string) (recv : hvalue) (predicate : hvalue -> M hvalue)
  : M hvalue :=
  if nullish recv then throw (cannot_read recv "find")
  else let* elems := read (fun h => array_elems h recv) in
       match elems with
       | Some elems => find_loop predicate elems
       | None => throw (not_a_function callee)
       end.

Section WithEngine.
Context {E : Engine} {L : LodashPath}.

(** An interpolation [${v}]. *)
Definition to_text (v : hvalue) : M string :=
  attempt (fun h => ToString stack_limit h [] v).

Definition JSON_stringify (v : hvalue) : M hvalue :=
  attempt (fun h => match SerializeJSONProperty stack_limit h [] v with
                    | Returns (Some s) => Returns (Str s)
                    | Returns None => Returns Undefined
                    | Throws x => Throws x
                    end).

(** lodash [get], reading the heap. *)
Definition isKey (h : heap) (k : string) (object : hvalue) : bool :=
  reIsPlainProp k || negb (reIsDeepProp k) ||
  (negb (nullish object) && hasProperty h object k).

Definition castPath (h : heap) (k : string) (object : hvalue) : list string :=
  if isKey h k object then [k] else stringToPath k.

Fixpoint baseGet_walk (h : heap) (object : hvalue) (path : list string) : option hvalue :=
  match path with
  | [] => Some object
  | k :: rest =>
      if nullish object then None else baseGet_walk h (getProp h object k) rest
  end.

Definition baseGet (h : heap) (object : hvalue) (k : string) : hvalue :=
  match castPath h k object with
  | [] => Undefined
  | path =>
      match baseGet_walk h object path with
      | Some v => v
      | None => Undefined
      end
  end.

Definition _get (object : hvalue) (path : string) (defaultValue : hvalue) : M hvalue :=
  read (fun h =>
          let result := if nullish object then Undefined else baseGet h object path in
          if strict_eq result Undefined then defaultValue else result).

Definition renderCallNumber (item : hvalue) : M hvalue :=
  let* empty := allocate (Arr []) in
  let* identifiers := _get item "identifiers" empty in
  if strict_eq identifiers Null then ret Null
  else
    let* callNumber :=
      call_find "identifiers.find" identifiers
        (fun identifier =>
           let* scheme := member identifier "scheme" in
           ret (Bool (strict_eq scheme (Str "CALL_NUMBER")))) in
    if truthy callNumber
    then let* v := member callNumber "value" in
         let* text := to_text v in
         ret (Str ("(" ++ text ++ ")"))
    else ret Null.

Definition destructure (options : hvalue) (k : string) (defaultValue : hvalue) : M hvalue :=
  if nullish options
  then throw (TypeError ("Cannot destructure property '" ++ k ++ "' of '" ++
                         (match options with Null => "null" | _ => "undefined" end) ++
                         "' as it is " ++
                         (match options with Null => "null" | _ => "undefined" end) ++ "."))
  else read (fun h => let v := getProp h options k in
                      if strict_eq v Undefined then defaultValue else v).

Definition shelfLink (shelfNumber options : hvalue) : M hvalue :=
  let* popupContent := destructure options "popupContent" Null in
  let* iframe := destructure options "iframe" (Bool false) in
  let* shelf := to_text shelfNumber in
  let shelfLink := "https://maps.web.cern.ch/?n=['SHELF " ++ shelf ++ "']" in
  let* shelfLink :=
    if negb (strict_eq popupContent Null)
    then let* json := JSON_stringify popupContent in
         let* text := to_text json in
         ret (shelfLink ++ "&popupContent=" ++ text)
    else ret shelfLink in
  let shelfLink :=
    if truthy iframe then shelfLink ++ "&showMenu=false&widgets=&scale=200"
    else shelfLink in
  ret (Str shelfLink).

(** React elements are immutable once created; they are kept as trees. *)
Inductive element : Type :=
| Expr (v : hvalue)
| Element (type : string) (props : list (string * hvalue)) (children : list element).

Definition shelfLinkComponent (item iconName : hvalue) : M element :=
  let iconName := if strict_eq iconName Undefined then Str "map pin" else iconName in
  let* shelfNumber := _get item "shelf" Undefined in
  let* callNumber := renderCallNumber item in
  let* title := member item "title" in
  let* popupContent := allocate (Obj [("Title", title); ("Call number", callNumber)]) in
  let* options := allocate (Obj [("popupContent", popupContent)]) in
  let* linkToShelf := shelfLink shelfNumber options in
  ret (Element "React.Fragment" []
         [ (if truthy shelfNumber
            then Element "a"
                   [("href", linkToShelf); ("target", Str "_blank");
                    ("rel", Str "noreferrer")]
                   [Element "Icon" [("name", iconName); ("as", Str "i")] [];
                    Expr shelfNumber]
            else Expr shelfNumber);
           Expr (Str " ");
           Expr callNumber ]).

Definition getDisplayVal (configField : string) (value : hvalue) : M hvalue :=
  let* config := read_invenioConfig in
  let* field := _get config configField Undefined in
  let* entry :=
    call_find "_get(...).find" field
      (fun entry =>
         let* v := member entry "value" in
         ret (Bool (strict_eq v value))) in
  member entry "text".

End WithEngine.

(** *** Well-formed heaps *)

(** A value is valid in a heap when it is not a reference out of it; a heap
    is closed when every value stored in it is valid. *)
Definition valid (h : heap) (v : hvalue) : bool :=
  match v with
  | Ref l => Nat.ltb l (List.length h)
  | _ => true
  end.

Definition valid_object (h : heap) (o : object) : bool :=
  match o with
  | Arr elems => forallb (valid h) elems
  | Obj fields => forallb (fun kv => valid h (snd kv)) fields
  end.

Definition closed (h : heap) : bool := forallb (valid_object h) h.

(** A helper that would record its result on the item, for comparison. *)
Definition tag_item (l : nat) (fields : list (string * hvalue)) : M unit :=
  store l (Obj (fields ++ [("seen", Bool true)])%list).

(** A computation only allocates when the state it leaves is the state it
    was given with new objects at the end of the heap: every object that was
    there is as it was, and so is the global. *)
Definition only_allocates {A} (m : M A) : Prop :=
  forall st, exists fresh,
    exec m st = mkState (objects st ++ fresh)%list (invenioConfig st).

(** *** What the helpers compute, as functions of the heap they are given *)

Fixpoint found (h : heap) (key : string) (p : hvalue -> bool) (elems : list hvalue)
  : outcome hvalue :=
  match elems with
  | [] => Returns Undefined
  | e :: rest =>
      if nullish e then Throws (cannot_read e key)
      else if p (getProp h e key) then Returns e
      else found h key p rest
  end.

(** [_get] with a plain property name. *)
Definition get_own (h : heap) (object : hvalue) (k : string) (defaultValue : hvalue)
  : hvalue :=
  if nullish object then defaultValue
  else if strict_eq (getProp h object k) Undefined then defaultValue
  else getProp h object k.

Section Denotations.
Context {E : Engine}.

Definition call_number_from (h : heap) (identifiers : hvalue) : outcome hvalue :=
  if strict_eq identifiers Null then Returns Null
  else if nullish identifiers then Throws (cannot_read identifiers "find")
  else match array_elems h identifiers with
       | None => Throws (not_a_function "identifiers.find")
       | Some elems =>
           match found h "scheme" (fun x => strict_eq x (Str "CALL_NUMBER")) elems with
           | Throws x => Throws x
           | Returns e =>
               if truthy e
               then match ToString stack_limit h [] (getProp h e "value") with
                    | Returns text => Returns (Str ("(" ++ text ++ ")"))
                    | Throws x => Throws x
                    end
               else Returns Null
           end
       end.

(** The call number of an item, read off the heap [h]. *)
Definition call_number_of (h : heap) (item : hvalue) : outcome hvalue :=
  if nullish item then Returns Null
  else if strict_eq (getProp h item "identifiers") Undefined then Returns Null
  else call_number_from h (getProp h item "identifiers").

(** The JSON text of [value], as [JSON.stringify] gives it to a template. *)
Definition json_text (h : heap) (stack : list nat) (fuel : nat) (value : hvalue)
  : outcome string :=
  match SerializeJSONProperty fuel h stack value with
  | Returns (Some s) => Returns s
  | Returns None => Returns "undefined"
  | Throws x => Throws x
  end.

Definition with_iframe (iframe : hvalue) (link : string) : string :=
  if truthy iframe then link ++ "&showMenu=false&widgets=&scale=200" else link.

(** The link of [shelfLink], read off the heap [h]. *)
Definition link_of (h : heap) (shelfNumber options : hvalue) : outcome hvalue :=
  if nullish options
  then Throws (TypeError ("Cannot destructure property 'popupContent' of '" ++
                          (match options with Null => "null" | _ => "undefined" end) ++
                          "' as it is " ++
                          (match options with Null => "null" | _ => "undefined" end) ++ "."))
  else
    let popupContent :=
      if strict_eq (getProp h options "popupContent") Undefined then Null
      else getProp h options "popupContent" in
    let iframe :=
      if strict_eq (getProp h options "iframe") Undefined then Bool false
      else getProp h options "iframe" in
    match ToString stack_limit h [] shelfNumber with
    | Throws x => Throws x
    | Returns shelf =>
        let base := "https://maps.web.cern.ch/?n=['SHELF " ++ shelf ++ "']" in
        if negb (strict_eq popupContent Null)
        then match json_text h [] stack_limit popupContent with
             | Throws x => Throws x
             | Returns text =>
                 Returns (Str (with_iframe iframe (base ++ "&popupContent=" ++ text)))
             end
        else Returns (Str (with_iframe iframe base))
    end.

(** The JSON text of the popup metadata [{Title: title, "Call number":
    callNumber}], an object newly made, read off the heap [h]. *)
Definition popup_text (h : heap) (title callNumber : hvalue) : outcome string :=
  match stack_limit with
  | O => Throws stack_overflow
  | S fuel =>
      match traverse
              (fun kv =>
                 match SerializeJSONProperty fuel h [] (snd kv) with
                 | Returns (Some s) => Returns [QuoteJSONString (fst kv) ++ ":" ++ s]
                 | Returns None => Returns []
                 | Throws x => Throws x
                 end)
              [("Title", title); ("Call number", callNumber)] with
      | Returns parts => Returns ("{" ++ comma_join (List.concat parts) ++ "}")
      | Throws x => Throws x
      end
  end.

(** The fragment of [shelfLinkComponent], read off the heap [h]. *)
Definition fragment_of (h : heap) (item iconName : hvalue) : outcome element :=
  let shelfNumber := get_own h item "shelf" Undefined in
  match call_number_of h item with
  | Throws x => Throws x
  | Returns callNumber =>
      if nullish item then Throws (cannot_read item "title")
      else
        match ToString stack_limit h [] shelfNumber with
        | Throws x => Throws x
        | Returns shelf =>
            match popup_text h (getProp h item "title") callNumber with
            | Throws x => Throws x
            | Returns text =>
                Returns
                  (Element "React.Fragment" []
                     [ (if truthy shelfNumber
                        then Element "a"
                               [("href",
                                 Str (("https://maps.web.cern.ch/?n=['SHELF "
                                       ++ shelf ++ "']")
                                      ++ "&popupContent=" ++ text));
                                ("target", Str "_blank");
                                ("rel", Str "noreferrer")]
                               [Element "Icon"
                                  [("name", if strict_eq iconName Undefined
                                            then Str "map pin" else iconName);
                                   ("as", Str "i")] [];
                                Expr shelfNumber]
                        else Expr shelfNumber);
                       Expr (Str " ");
                       Expr callNumber ])
            end
        end
  end.

End Denotations.

End Heap.

(** ** Reading the properties as statements

    [hasAnchor]: the fragment has an anchor child.  [anchor_href]: the [href]
    of its first anchor child.  [contains needle hay]: [needle] occurs in
    [hay]. *)







(** The first entry of a sequence whose property [key] satisfies [p], as
    [find] computes it: reading [key] off a [null] or [undefined] entry
    throws. *)
Fixpoint found (key : string) (p : value -> bool) (elems : list value) : completion value :=
  match elems with
  | [] => Normal VUndefined
  | e :: rest =>
      if nullish e then Throw (cannot_read e key)
      else if p (getProp e key) then Normal e
      else found key p rest
  end.

Definition all_present (elems : list value) : bool :=
  forallb (fun e => negb (nullish e)) elems.

Definition is_call_number (e : value) : bool :=
  strict_eq (getProp e "scheme") (VStr "CALL_NUMBER").

Definition has_value (v e : value) : bool :=
  strict_eq (getProp e "value") v.

(** The world after [n] allocations. *)
Definition allocated (n : nat) (w : world) : world :=
  mkWorld (invenioConfig w) (n + next_addr w).

(** The completion of [renderCallNumber] once [identifiers] is known. *)
Definition call_number_from (identifiers : value) : completion value :=
  if strict_eq identifiers VNull then Normal VNull
  else match identifiers with
       | VUndefined | VNull => Throw (cannot_read identifiers "find")
       | VArr _ elems =>
           match found "scheme" (fun x => strict_eq x (VStr "CALL_NUMBER")) elems with
           | Normal e =>
               if truthy e
               then Normal (VStr ("(" ++ ToString (getProp e "value") ++ ")"))
               else Normal VNull
           | Throw x => Throw x
           end
       | _ => Throw (not_a_function "identifiers.find")
       end.

(** The popup metadata [shelfLinkComponent] builds for an item. *)
Definition popup_metadata (a : nat) (title callNumber : value) : value :=
  VObj a [("Title", title); ("Call number", callNumber)].

(** The completion of [getDisplayVal] once the configuration field is read. *)
Definition display_from (field v : value) : completion value :=
  match field with
  | VUndefined | VNull => Throw (cannot_read field "find")
  | VArr _ entries =>
      match found "value" (fun x => strict_eq x v) entries with
      | Normal e =>
          if nullish e then Throw (cannot_read e "text")
          else Normal (getProp e "text")
      | Throw x => Throw x
      end
  | _ => Throw (not_a_function "_get(...).find")
  end.

(** The first entry of a configuration field whose [value] is [v]; the field
    is well formed when none of its entries is [null] or [undefined]. *)
Definition first_entry (field v : value) : option value :=
  match field with
  | VArr _ entries => List.find (has_value v) entries
  | _ => None
  end.

Definition entries_present (field : value) : bool :=
  match field with
  | VArr _ entries => all_present entries
  | _ => true
  end.

(** ** Vocabulary for the further properties *)

Definition is_array (v : value) : bool :=
  match v with
  | VArr _ _ => true
  | _ => false
  end.

(** No element of the sequence satisfies [p]. *)
Definition none_satisfy (p : value -> bool) (elems : list value) : bool :=
  forallb (fun e => negb (p e)) elems.

(** Strings, numbers, booleans, [null] and [undefined]: the values whose
    conversion to text or to JSON runs no further code and cannot fail. *)
Definition is_primitive (v : value) : bool :=
  match v with
  | VArr _ _ | VObj _ _ => false
  | _ => true
  end.



(** ** Sample records and a sample configuration table *)

Definition sample_identifiers : list value :=
  [VObj 12 [("scheme", VStr "ISBN"); ("value", VStr "9780131103627")];
   VObj 13 [("scheme", VStr "CALL_NUMBER"); ("value", VStr "QA76")];
   VObj 14 [("scheme", VStr "CALL_NUMBER"); ("value", VStr "QA77")]].

Definition sample_item : value :=
  VObj 10 [("identifiers", VArr 11 sample_identifiers);
           ("shelf", VStr "B12");
           ("title", VStr "X")].


Definition item_null_identifiers : value :=
  VObj 30 [("identifiers", VNull); ("shelf", VStr "B12"); ("title", VStr "X")].

Definition item_without_identifiers : value :=
  VObj 40 [("shelf", VStr "B12"); ("title", VStr "X")].



Definition sample_config : value :=
  VObj 1 [("ITEMS",
           VObj 2 [("mediums",
                    VArr 3 [VObj 4 [("value", VStr "NOT_SPECIFIED"); ("text", VStr "Not specified")];
                            VObj 5 [("value", VStr "PAPER"); ("text", VStr "Paper")]])])].

(** ** Further sample records *)

Definition isbn_entry : value :=
  VObj 12 [("scheme", VStr "ISBN"); ("value", VStr "9780131103627")].

Definition call_number_entry : value :=
  VObj 13 [("scheme", VStr "CALL_NUMBER"); ("value", VStr "QA76")].


Definition item_null_then_call_number : value :=
  VObj 72 [("identifiers", VArr 73 [isbn_entry; VNull; call_number_entry])].

Definition item_text_identifiers : value :=
  VObj 74 [("identifiers", VStr "QA76")].

Definition call_number_without_value : value :=
  VObj 75 [("scheme", VStr "CALL_NUMBER")].

Definition item_call_number_without_value : value :=
  VObj 76 [("identifiers", VArr 77 [isbn_entry; call_number_without_value])].


Definition item_shelf_zero : value :=
  VObj 79 [("shelf", VNum 0); ("title", VStr "X")].


Definition paper_entry : value :=
  VObj 5 [("value", VStr "PAPER"); ("text", VStr "Paper")].

Definition unspecified_entry : value :=
  VObj 4 [("value", VStr "NOT_SPECIFIED"); ("text", VStr "Not specified")].

Definition untexted_entry : value := VObj 6 [("value", VStr "DIGITAL")].

Definition config_with_gaps : value :=
  VObj 81 [("mediums", VArr 82 [unspecified_entry; paper_entry; VNull; untexted_entry]);
           ("languages", VObj 83 [("ENG", VStr "English")])].

(** ** A sample heap *)

(** The record of [sample_item] laid out in a heap: the two identifier
    entries, the array that holds them, and the record itself. *)
Definition sample_heap : Heap.heap :=
  [ Heap.Obj [("scheme", Heap.Str "ISBN"); ("value", Heap.Str "9780131103627")];
    Heap.Obj [("scheme", Heap.Str "CALL_NUMBER"); ("value", Heap.Str "QA76")];
    Heap.Arr [Heap.Ref 0; Heap.Ref 1];
    Heap.Obj [("identifiers", Heap.Ref 2); ("shelf", Heap.Str "B12");
              ("title", Heap.Str "X")];
    Heap.Obj [("popupContent", Heap.Ref 3); ("iframe", Heap.Bool true)] ].

Definition sample_state : Heap.state := Heap.mkState sample_heap Heap.Undefined.

Definition sample_engine : Engine := {| stack_limit := 64 |}.

(** * Properties *)

(** ** The model at work *)

Example index_of_key_12 : index_of_key "12" = Some 12%nat.
Proof. reflexivity. Qed.

Example index_of_key_012 : index_of_key "012" = None.
Proof. reflexivity. Qed.

Example string_of_Z_neg : string_of_Z (-42) = "-42".
Proof. reflexivity. Qed.

Example ToString_array :
  ToString (VArr 0 [VNum 1; VNull; VStr "a"; VArr 1 [VBool true; VUndefined]]) = "1,,a,true,".
Proof. reflexivity. Qed.

Example JSON_stringify_object :
  JSON_stringify (VObj 0 [("Title", VStr "X"); ("n", VUndefined); ("l", VArr 1 [VUndefined; VNum 3])])
  = VStr ("{" ++ dquote ++ "Title" ++ dquote ++ ":" ++ dquote ++ "X" ++ dquote ++ "," ++
          dquote ++ "l" ++ dquote ++ ":[null,3]}").
Proof. reflexivity. Qed.

Example QuoteJSONString_control :
  QuoteJSONString (String (ascii_of_nat 31) "a") = dquote ++ backslash ++ "u001fa" ++ dquote.
Proof. reflexivity. Qed.

Example renderCallNumber_QA76 :
  eval (renderCallNumber (L := dotted)
          (VObj 1 [("identifiers",
                    VArr 2 [VObj 3 [("scheme", VStr "ISBN"); ("value", VStr "1")];
                            VObj 4 [("scheme", VStr "CALL_NUMBER"); ("value", VStr "QA76")]])]))
       (w0 VUndefined)
  = Normal (VStr "(QA76)").
Proof. reflexivity. Qed.

Example shelfLink_B12_popup :
  eval (shelfLink (VStr "B12")
          (VObj 1 [("popupContent", VObj 2 [("Title", VStr "X")]); ("iframe", VBool true)]))
       (w0 VUndefined)
  = Normal (VStr ("https://maps.web.cern.ch/?n=['SHELF B12']&popupContent={" ++
                  dquote ++ "Title" ++ dquote ++ ":" ++ dquote ++ "X" ++ dquote ++
                  "}&showMenu=false&widgets=&scale=200")).
Proof. reflexivity. Qed.

Example getDisplayVal_nested :
  eval (getDisplayVal (L := dotted) "ITEMS.mediums" (VStr "PAPER"))
       (w0 (VObj 1 [("ITEMS",
                     VObj 2 [("mediums",
                              VArr 3 [VObj 4 [("value", VStr "NOT_SPECIFIED"); ("text", VStr "Not specified")];
                                      VObj 5 [("value", VStr "PAPER"); ("text", VStr "Paper")]])])]))
  = Normal (VStr "Paper").
Proof. reflexivity. Qed.

(** ** Running the helpers *)

Lemma strict_eq_undefined (v : value) :
  strict_eq v VUndefined = true <-> v = VUndefined.
Proof. destruct v; simpl; split; congruence. Qed.


Lemma bind_run {A B} (m : M A) (k : A -> M B) (w w' : world) (a : A) :
  m w = (Normal a, w') -> bind m k w = k a w'.
Proof. intros H. unfold bind. rewrite H. reflexivity. Qed.

Lemma bind_throw {A B} (m : M A) (k : A -> M B) (w w' : world) (e : exn) :
  m w = (Throw e, w') -> bind m k w = (Throw e, w').
Proof. intros H. unfold bind. rewrite H. reflexivity. Qed.

Lemma member_run (base : value) (k : string) (w : world) :
  nullish base = false -> member base k w = (Normal (getProp base k), w).
Proof. intros H. unfold member. rewrite H. reflexivity. Qed.

Lemma member_throw (base : value) (k : string) (w : world) :
  nullish base = true -> member base k w = (Throw (cannot_read base k), w).
Proof. intros H. unfold member. rewrite H. reflexivity. Qed.

(** [find] with a callback that reads one property and tests it changes
    nothing and computes [found]. *)
Lemma find_loop_found (key : string) (p : value -> bool) (elems : list value) (w : world) :
  find_loop (fun e => x <- member e key ;; ret (VBool (p x))) elems w
  = (found key p elems, w).
Proof.
  induction elems as [|e rest IH]; simpl.
  - reflexivity.
  - unfold bind at 1. unfold bind at 1. unfold member.
    destruct (nullish e) eqn:He; simpl.
    + reflexivity.
    + destruct (p (getProp e key)); [reflexivity | exact IH].
Qed.

Lemma found_all_present (key : string) (p : value -> bool) (elems : list value) :
  all_present elems = true ->
  found key p elems =
    match List.find (fun e => p (getProp e key)) elems with
    | Some e => Normal e
    | None => Normal VUndefined
    end.
Proof.
  induction elems as [|e rest IH]; simpl; intros H.
  - reflexivity.
  - apply andb_true_iff in H. destruct H as [He Hrest].
    apply negb_true_iff in He. rewrite He.
    destruct (p (getProp e key)); [reflexivity | exact (IH Hrest)].
Qed.

Section GetFacts.
Context {L : LodashPath}.

(** [_get] with a plain property name reads that one property. *)
Lemma get_plain (k : string) (item d : value) :
  reIsPlainProp k = true ->
  _get item k d =
    if nullish item then d
    else if strict_eq (getProp item k) VUndefined then d
    else getProp item k.
Proof.
  intros Hk. unfold _get, baseGet, castPath, isKey. rewrite Hk. simpl.
  destruct (nullish item); reflexivity.
Qed.

End GetFacts.

Lemma truthy_not_nullish (v : value) : truthy v = true -> nullish v = false.
Proof. destruct v; simpl; congruence. Qed.

Lemma call_number_from_empty (a : nat) : call_number_from (VArr a []) = Normal VNull.
Proof. reflexivity. Qed.

Section HelperFacts.
Context {L : LodashPath}.

Lemma renderCallNumber_run (item : value) (w : world) :
  renderCallNumber item w =
    (call_number_from (_get item "identifiers" (VArr (next_addr w) [])),
     allocated 1 w).
Proof.
  unfold renderCallNumber, new_array, alloc.
  unfold bind at 1. unfold bind at 1. simpl.
  fold (allocated 1 w).
  set (identifiers := _get item "identifiers" (VArr (next_addr w) [])).
  unfold call_number_from.
  destruct (strict_eq identifiers VNull) eqn:Hnull; [reflexivity|].
  unfold call_find.
  destruct identifiers as [| |b|n|s|a elems|a fields]; simpl;
    try reflexivity; try discriminate.
  unfold bind at 1. rewrite find_loop_found.
  destruct (found "scheme" (fun x => strict_eq x (VStr "CALL_NUMBER")) elems)
    as [e|x]; [|reflexivity].
  destruct (truthy e) eqn:Ht; [|reflexivity].
  unfold bind, member. rewrite (truthy_not_nullish e Ht). reflexivity.
Qed.

(** What [identifiers] is bound to: the field when the item has one that is
    not [undefined], the fresh empty array otherwise. *)
Lemma identifiers_cases (item d : value) :
  (_get item "identifiers" d = d /\
   (nullish item = true \/ getProp item "identifiers" = VUndefined)) \/
  (_get item "identifiers" d = getProp item "identifiers" /\
   nullish item = false /\ getProp item "identifiers" <> VUndefined).
Proof.
  rewrite get_plain by reflexivity.
  destruct (nullish item) eqn:Hn; [left; auto|].
  destruct (strict_eq (getProp item "identifiers") VUndefined) eqn:Hu.
  - left. split; [reflexivity|]. right. apply strict_eq_undefined. exact Hu.
  - right. repeat split; try reflexivity.
    intros H. apply strict_eq_undefined in H. congruence.
Qed.

End HelperFacts.

Lemma popup_parameter_address (a b : nat) (fields : list (string * value)) :
  popup_parameter (VObj a fields) = popup_parameter (VObj b fields).
Proof. reflexivity. Qed.

Lemma shelfLink_popup_only (shelfNumber : value) (a b : nat)
      (fields : list (string * value)) (w : world) :
  shelfLink shelfNumber (VObj a [("popupContent", VObj b fields)]) w
  = (Normal (VStr (shelf_base shelfNumber ++ popup_parameter (VObj b fields))), w).
Proof. reflexivity. Qed.

Section ComponentFacts.
Context {L : LodashPath}.

Lemma shelfLinkComponent_run (item iconName cn : value) (w : world) :
  nullish item = false ->
  eval (renderCallNumber item) w = Normal cn ->
  let shelfNumber := _get item "shelf" VUndefined in
  let href :=
    VStr (shelf_base shelfNumber ++
          popup_parameter (popup_metadata 0 (getProp item "title") cn)) in
  shelfLinkComponent item iconName w =
    (Normal (JElement Fragment []
               [ (if truthy shelfNumber
                  then shelf_anchor href (default_icon iconName) shelfNumber
                  else JExpr shelfNumber);
                 JExpr (VStr " ");
                 JExpr cn ]),
     allocated 3 w).
Proof.
  intros Hitem Hcn shelfNumber href.
  unfold eval in Hcn. rewrite renderCallNumber_run in Hcn. simpl in Hcn.
  unfold shelfLinkComponent.
  unfold bind at 1. rewrite renderCallNumber_run, Hcn.
  unfold bind at 1. rewrite (member_run item "title" _ Hitem).
  unfold new_object, alloc, bind, ret. simpl.
  reflexivity.
Qed.

Lemma shelfLinkComponent_no_item (item iconName : value) (w : world) :
  nullish item = true ->
  shelfLinkComponent item iconName w =
    (Throw (cannot_read item "title"), allocated 1 w).
Proof.
  intros Hitem. unfold shelfLinkComponent.
  unfold bind at 1. rewrite renderCallNumber_run.
  rewrite get_plain by reflexivity. rewrite Hitem. simpl.
  unfold bind at 1. rewrite (member_throw item "title" _ Hitem). reflexivity.
Qed.

Lemma shelfLinkComponent_render_throws (item iconName : value) (w : world) (e : exn) :
  eval (renderCallNumber item) w = Throw e ->
  shelfLinkComponent item iconName w = (Throw e, allocated 1 w).
Proof.
  intros He. unfold eval in He. rewrite renderCallNumber_run in He. simpl in He.
  unfold shelfLinkComponent.
  unfold bind at 1. rewrite renderCallNumber_run, He. reflexivity.
Qed.

End ComponentFacts.

Lemma all_present_In (elems : list value) (e : value) :
  all_present elems = true -> In e elems -> nullish e = false.
Proof.
  unfold all_present. intros H Hin.
  rewrite forallb_forall in H. apply negb_true_iff. exact (H e Hin).
Qed.

Lemma display_from_first (field v : value) :
  entries_present field = true ->
  display_from field v =
    match first_entry field v with
    | Some entry => Normal (getProp entry "text")
    | None =>
        match field with
        | VArr _ _ => Throw (cannot_read VUndefined "text")
        | VUndefined | VNull => Throw (cannot_read field "find")
        | _ => Throw (not_a_function "_get(...).find")
        end
    end.
Proof.
  destruct field as [| |b|n|s|a entries|a fields]; simpl; intros Hp; try reflexivity.
  rewrite (found_all_present _ _ _ Hp).
  change (fun e => strict_eq (getProp e "value") v) with (has_value v).
  destruct (List.find (has_value v) entries) as [entry|] eqn:Hf; [|reflexivity].
  apply find_some in Hf. destruct Hf as [Hin _].
  rewrite (all_present_In _ _ Hp Hin). reflexivity.
Qed.

Section DisplayFacts.
Context {L : LodashPath}.

Lemma getDisplayVal_run (configField : string) (v : value) (w : world) :
  getDisplayVal configField v w =
    (display_from (_get (invenioConfig w) configField VUndefined) v, w).
Proof.
  unfold getDisplayVal, read_invenioConfig.
  unfold bind at 1. unfold bind at 1. unfold call_find, display_from.
  destruct (_get (invenioConfig w) configField VUndefined)
    as [| |b|n|s|a entries|a fields]; simpl; try reflexivity.
  rewrite find_loop_found.
  destruct (found "value" (fun x => strict_eq x v) entries) as [e|x]; [|reflexivity].
  unfold member. destruct (nullish e); reflexivity.
Qed.

End DisplayFacts.

(** ** Occurrences in a concatenation *)












Lemma hasProperty_identifiers (item : value) :
  hasProperty item "identifiers" = false ->
  nullish item = true \/ getProp item "identifiers" = VUndefined.
Proof.
  destruct item as [| |b|n|s|a elems|a fields]; simpl; auto.
  destruct (assoc "identifiers" fields); [discriminate | auto].
Qed.

Lemma is_call_number_truthy (e : value) :
  is_call_number e = true -> truthy e = true.
Proof.
  unfold is_call_number.
  destruct e as [| |b|n|s|a elems|a fields]; simpl; try discriminate; auto.
Qed.

(** ** The claims of the specification *)

Section Claims.
Context {L : LodashPath}.

(** C1. With a well-formed configuration field (no [null] or [undefined]
    entry), [getDisplayVal configField v] returns the [text] of the first
    entry whose [value] is [v]; it returns at all exactly when the field
    resolves to a sequence that has such an entry, and in every other case
    (field absent, not a sequence, or no matching entry) it throws a
    [TypeError]; no fallback value is produced. *)
Theorem getDisplayVal_lookup (configField : string) (v : value) (w : world) :
  let field := _get (invenioConfig w) configField VUndefined in
  entries_present field = true ->
  (forall entry, first_entry field v = Some entry ->
     eval (getDisplayVal configField v) w = Normal (getProp entry "text")) /\
  (first_entry field v = None ->
     exists msg, eval (getDisplayVal configField v) w = Throw (TypeError msg)) /\
  ((exists t, eval (getDisplayVal configField v) w = Normal t) <->
   (exists a entries entry,
      field = VArr a entries /\ In entry entries /\ has_value v entry = true)).
Proof.
  intros field Hp.
  assert (Hrun : eval (getDisplayVal configField v) w = display_from field v).
  { unfold eval. rewrite getDisplayVal_run. reflexivity. }
  rewrite Hrun, (display_from_first field v Hp).
  split; [|split].
  - intros entry He. rewrite He. reflexivity.
  - intros He. rewrite He.
    destruct field; eexists; reflexivity.
  - split.
    + intros [t Ht].
      destruct field as [| |b|n|s|a entries|a fields]; simpl in Ht; try discriminate.
      destruct (List.find (has_value v) entries) as [entry|] eqn:Hf; [|discriminate].
      apply find_some in Hf. exists a, entries, entry. tauto.
    + intros (a & entries & entry & Hfield & Hin & Hv).
      rewrite Hfield. simpl.
      destruct (List.find (has_value v) entries) as [e|] eqn:Hf.
      * eexists; reflexivity.
      * rewrite (find_none _ _ Hf entry Hin) in Hv. discriminate.
Qed.


(** C5. For an item whose [identifiers] field is [null],
    [renderCallNumber] returns [null]. *)
Theorem renderCallNumber_null_identifiers (item : value) (w : world) :
  nullish item = false ->
  getProp item "identifiers" = VNull ->
  eval (renderCallNumber item) w = Normal VNull.
Proof.
  intros Hitem Hids.
  unfold eval. rewrite renderCallNumber_run. simpl.
  rewrite get_plain by reflexivity. rewrite Hitem, Hids. reflexivity.
Qed.

(** C6. For an item without an [identifiers] field, [renderCallNumber]
    throws nothing: the missing field reads as the empty sequence and the
    result is [null]. *)
Theorem renderCallNumber_absent_identifiers (item : value) (w : world) :
  hasProperty item "identifiers" = false ->
  eval (renderCallNumber item) w = Normal VNull /\
  _get item "identifiers" (VArr (next_addr w) []) = VArr (next_addr w) [].
Proof.
  intros Habs. apply hasProperty_identifiers in Habs.
  assert (Hget : _get item "identifiers" (VArr (next_addr w) []) = VArr (next_addr w) []).
  { rewrite get_plain by reflexivity.
    destruct Habs as [Hn|Hu]; [rewrite Hn; reflexivity|].
    rewrite Hu. simpl. destruct (nullish item); reflexivity. }
  split; [|exact Hget].
  unfold eval. rewrite renderCallNumber_run. simpl. rewrite Hget. reflexivity.
Qed.


(** C7. [shelfLink("B12", {popupContent: null, iframe: false})] is the base
    URL with [B12] for the shelf number and nothing appended. *)
Theorem shelfLink_B12_plain (a : nat) (w : world) :
  eval (shelfLink (VStr "B12")
          (VObj a [("popupContent", VNull); ("iframe", VBool false)])) w
  = Normal (VStr "https://maps.web.cern.ch/?n=['SHELF B12']").
Proof. reflexivity. Qed.


(** C9. For an item that is [null] or [undefined], [shelfLinkComponent]
    throws the [TypeError] of reading [title] off it, although
    [renderCallNumber] on the same item returns [null]. *)
Theorem shelfLinkComponent_throws_without_item (item iconName : value) (w : world) :
  nullish item = true ->
  eval (shelfLinkComponent item iconName) w = Throw (cannot_read item "title") /\
  eval (renderCallNumber item) w = Normal VNull.
Proof.
  intros Hitem. split.
  - unfold eval. rewrite (shelfLinkComponent_no_item _ _ _ Hitem). reflexivity.
  - unfold eval. rewrite renderCallNumber_run. simpl.
    rewrite get_plain by reflexivity. rewrite Hitem. reflexivity.
Qed.


End Claims.

(** ** The claims at the sample records *)

Lemma getDisplayVal_lookup_witness :
  entries_present (_get (L := dotted) sample_config "ITEMS.mediums" VUndefined) = true /\
  eval (getDisplayVal (L := dotted) "ITEMS.mediums" (VStr "PAPER")) (w0 sample_config)
  = Normal (VStr "Paper").
Proof.
  split; [reflexivity|].
  exact (proj1 (getDisplayVal_lookup (L := dotted) "ITEMS.mediums" (VStr "PAPER")
                  (w0 sample_config) eq_refl)
               (VObj 5 [("value", VStr "PAPER"); ("text", VStr "Paper")]) eq_refl).
Defined.


Lemma renderCallNumber_null_identifiers_witness :
  nullish item_null_identifiers = false /\
  getProp item_null_identifiers "identifiers" = VNull /\
  eval (renderCallNumber (L := dotted) item_null_identifiers) (w0 VUndefined) = Normal VNull.
Proof.
  split; [reflexivity|]. split; [reflexivity|].
  exact (renderCallNumber_null_identifiers (L := dotted) item_null_identifiers
           (w0 VUndefined) eq_refl eq_refl).
Defined.

Lemma renderCallNumber_absent_identifiers_witness :
  hasProperty item_without_identifiers "identifiers" = false /\
  eval (renderCallNumber (L := dotted) item_without_identifiers) (w0 VUndefined) = Normal VNull.
Proof.
  split; [reflexivity|].
  exact (proj1 (renderCallNumber_absent_identifiers (L := dotted) item_without_identifiers
                  (w0 VUndefined) eq_refl)).
Defined.



Lemma shelfLinkComponent_throws_without_item_witness :
  nullish VUndefined = true /\
  eval (shelfLinkComponent (L := dotted) VUndefined VUndefined) (w0 VUndefined)
  = Throw (TypeError "Cannot read properties of undefined (reading 'title')") /\
  eval (renderCallNumber (L := dotted) VUndefined) (w0 VUndefined) = Normal VNull.
Proof.
  split; [reflexivity|].
  exact (shelfLinkComponent_throws_without_item (L := dotted) VUndefined VUndefined
           (w0 VUndefined) eq_refl).
Defined.



(** ** Further properties of the helpers *)

Lemma found_skip (key : string) (p : value -> bool) (pre rest : list value) :
  all_present pre = true ->
  none_satisfy (fun e => p (getProp e key)) pre = true ->
  found key p (pre ++ rest)%list = found key p rest.
Proof.
  induction pre as [|x pre IH]; simpl; intros Hp Hn.
  - reflexivity.
  - apply andb_true_iff in Hp. destruct Hp as [Hx Hp].
    apply andb_true_iff in Hn. destruct Hn as [Hnx Hn].
    apply negb_true_iff in Hx. apply negb_true_iff in Hnx.
    rewrite Hx, Hnx. exact (IH Hp Hn).
Qed.

Lemma call_number_from_shape (identifiers v : value) :
  call_number_from identifiers = Normal v ->
  v = VNull \/ exists s, v = VStr ("(" ++ s ++ ")").
Proof.
  unfold call_number_from.
  destruct (strict_eq identifiers VNull); [intros H; left; congruence|].
  destruct identifiers as [| |b|n|s|a elems|a fields]; try discriminate.
  destruct (found "scheme" (fun x => strict_eq x (VStr "CALL_NUMBER")) elems)
    as [e|x]; [|discriminate].
  destruct (truthy e); intros H; injection H as <-.
  - right. eexists. reflexivity.
  - left. reflexivity.
Qed.









Section More.
Context {L : LodashPath}.

(** X1. Whatever the item, a result of [renderCallNumber] is [null] or a
    text in parentheses; so it is truthy exactly when it is not [null]. *)
Theorem renderCallNumber_result_shape (item v : value) (w : world) :
  eval (renderCallNumber item) w = Normal v ->
  (v = VNull \/ exists s, v = VStr ("(" ++ s ++ ")")) /\
  truthy v = negb (strict_eq v VNull).
Proof.
  unfold eval. rewrite renderCallNumber_run. simpl. intros H.
  apply call_number_from_shape in H.
  split; [exact H|].
  destruct H as [->|[s ->]]; reflexivity.
Qed.


(** X3. A [null] or [undefined] entry met before any call number makes
    [renderCallNumber] throw the [TypeError] of reading [scheme] off it. *)
Theorem renderCallNumber_missing_entry
        (item e : value) (a : nat) (pre post : list value) (w : world) :
  nullish item = false ->
  getProp item "identifiers" = VArr a (pre ++ e :: post)%list ->
  all_present pre = true ->
  none_satisfy is_call_number pre = true ->
  nullish e = true ->
  eval (renderCallNumber item) w = Throw (cannot_read e "scheme").
Proof.
  intros Hitem Hids Hp Hn He.
  unfold eval. rewrite renderCallNumber_run. simpl.
  rewrite get_plain by reflexivity. rewrite Hitem, Hids. simpl.
  unfold call_number_from. simpl.
  rewrite (found_skip _ _ pre (e :: post) Hp Hn). simpl.
  rewrite He. reflexivity.
Qed.

(** X4. When [identifiers] holds something that is neither [null],
    [undefined] nor an array (a text, a number, a plain object),
    [renderCallNumber] throws the [TypeError] that [identifiers.find] is not a
    function. *)
Theorem renderCallNumber_not_a_sequence (item : value) (w : world) :
  nullish item = false ->
  nullish (getProp item "identifiers") = false ->
  is_array (getProp item "identifiers") = false ->
  eval (renderCallNumber item) w
  = Throw (TypeError "identifiers.find is not a function").
Proof.
  intros Hitem Hn Ha.
  unfold eval. rewrite renderCallNumber_run. simpl.
  rewrite get_plain by reflexivity. rewrite Hitem.
  destruct (getProp item "identifiers"); simpl in *; try discriminate; reflexivity.
Qed.

(** X5. A call-number entry without a [value] gives the text
    ["(undefined)"], not [null]. *)
Theorem renderCallNumber_missing_value
        (item e : value) (a : nat) (pre post : list value) (w : world) :
  nullish item = false ->
  getProp item "identifiers" = VArr a (pre ++ e :: post)%list ->
  all_present pre = true ->
  none_satisfy is_call_number pre = true ->
  is_call_number e = true ->
  hasProperty e "value" = false ->
  eval (renderCallNumber item) w = Normal (VStr "(undefined)").
Proof.
  intros Hitem Hids Hp Hn He Hv.
  assert (Hval : getProp e "value" = VUndefined).
  { destruct e as [| |b|n|s|a' elems|a' fields]; simpl in *; try reflexivity.
    destruct (assoc "value" fields); [discriminate | reflexivity]. }
  unfold eval. rewrite renderCallNumber_run. simpl.
  rewrite get_plain by reflexivity. rewrite Hitem, Hids. simpl.
  unfold call_number_from. simpl.
  rewrite (found_skip _ _ pre (e :: post) Hp Hn). simpl.
  pose proof (is_call_number_truthy e He) as Ht.
  rewrite (truthy_not_nullish e Ht).
  unfold is_call_number in He. rewrite He, Ht, Hval. reflexivity.
Qed.


(** X7. Called without an options object ([undefined] or [null]),
    [shelfLink] throws a [TypeError] instead of falling back to the
    defaults. *)
Theorem shelfLink_without_options (shelfNumber options : value) (w : world) :
  nullish options = true ->
  exists msg, eval (shelfLink shelfNumber options) w = Throw (TypeError msg).
Proof.
  intros Hopt. unfold eval, shelfLink, destructure, bind, throw.
  rewrite Hopt. eexists. reflexivity.
Qed.

(** X8. For an item whose shelf number and title are primitive values or
    missing (the conversion of an object to text or to JSON can throw on its
    own), [shelfLinkComponent] throws exactly when [renderCallNumber] throws
    on the item, whose error it passes on, or when the item is [null] or
    [undefined], where it fails on reading [title]; in every other case it
    produces its fragment. *)
Theorem shelfLinkComponent_throws_iff (item iconName : value) (w : world) (e : exn) :
  is_primitive (_get item "shelf" VUndefined) = true ->
  is_primitive (getProp item "title") = true ->
  (eval (shelfLinkComponent item iconName) w = Throw e <->
   eval (renderCallNumber item) w = Throw e \/
   (nullish item = true /\ e = cannot_read item "title")) /\
  ((exists frag, eval (shelfLinkComponent item iconName) w = Normal frag) <->
   (nullish item = false /\ exists cn, eval (renderCallNumber item) w = Normal cn)).
Proof.
  intros _ _.
  destruct (nullish item) eqn:Hitem.
  - assert (Hr : eval (renderCallNumber item) w = Normal VNull).
    { unfold eval. rewrite renderCallNumber_run. simpl.
      rewrite get_plain by reflexivity. rewrite Hitem. reflexivity. }
    unfold eval at 1 3. rewrite (shelfLinkComponent_no_item _ _ _ Hitem). simpl.
    rewrite Hr. split; split.
    + intros H. right. split; [reflexivity | congruence].
    + intros [H|[_ He]]; [discriminate | subst e; reflexivity].
    + intros [frag H]. discriminate.
    + intros [H _]. discriminate.
  - destruct (eval (renderCallNumber item) w) as [cn|x] eqn:Hr.
    + unfold eval at 1 2.
      rewrite (shelfLinkComponent_run item iconName cn w Hitem Hr). simpl.
      split; split.
      * discriminate.
      * intros [H|[H _]]; discriminate.
      * intros _. split; [reflexivity|]. exists cn. reflexivity.
      * intros _. eexists. reflexivity.
    + unfold eval at 1 2.
      rewrite (shelfLinkComponent_render_throws item iconName w x Hr). simpl.
      split; split.
      * intros H. left. congruence.
      * intros [H|[H _]]; [congruence | discriminate].
      * intros [frag H]. discriminate.
      * intros [_ [cn H]]. discriminate.
Qed.

(** X9. For an item without a truthy shelf number the fragment has three
    children: the shelf number itself as it was read (so [0] or the empty text
    is handed to the renderer, not dropped), the blank, and the call number. *)
Theorem shelfLinkComponent_without_shelf
        (item iconName callNumber : value) (w : world) :
  nullish item = false ->
  eval (renderCallNumber item) w = Normal callNumber ->
  truthy (_get item "shelf" VUndefined) = false ->
  eval (shelfLinkComponent item iconName) w
  = Normal (JElement Fragment []
              [JExpr (_get item "shelf" VUndefined); JExpr (VStr " "); JExpr callNumber]).
Proof.
  intros Hitem Hcn Hshelf. unfold eval.
  rewrite (shelfLinkComponent_run item iconName callNumber w Hitem Hcn). simpl.
  rewrite Hshelf. reflexivity.
Qed.



(** X12. [getDisplayVal] stops at the first entry whose [value] is the one
    asked for and returns its [text]: the entries after it are not looked at,
    whatever they are. *)
Theorem getDisplayVal_stops_at_first
        (configField : string) (v e : value) (a : nat) (pre post : list value) (w : world) :
  _get (invenioConfig w) configField VUndefined = VArr a (pre ++ e :: post)%list ->
  all_present pre = true ->
  none_satisfy (has_value v) pre = true ->
  nullish e = false ->
  has_value v e = true ->
  eval (getDisplayVal configField v) w = Normal (getProp e "text").
Proof.
  intros Hfield Hp Hn He Hv.
  unfold eval. rewrite getDisplayVal_run, Hfield. simpl.
  rewrite (found_skip _ _ pre (e :: post) Hp Hn). simpl.
  unfold has_value in Hv. rewrite He, Hv, He. reflexivity.
Qed.

(** X13. A [null] or [undefined] entry met before any match makes
    [getDisplayVal] throw the [TypeError] of reading [value] off it. *)
Theorem getDisplayVal_missing_entry
        (configField : string) (v e : value) (a : nat) (pre post : list value) (w : world) :
  _get (invenioConfig w) configField VUndefined = VArr a (pre ++ e :: post)%list ->
  all_present pre = true ->
  none_satisfy (has_value v) pre = true ->
  nullish e = true ->
  eval (getDisplayVal configField v) w = Throw (cannot_read e "value").
Proof.
  intros Hfield Hp Hn He.
  unfold eval. rewrite getDisplayVal_run, Hfield. simpl.
  rewrite (found_skip _ _ pre (e :: post) Hp Hn). simpl.
  rewrite He. reflexivity.
Qed.

(** X14. When the configuration field resolves to a value that is not an
    array, [getDisplayVal] throws: the [TypeError] of reading [find] off [null]
    when the value is [null], and the [TypeError] that [_get(...).find] is not
    a function when it is any other value. *)
Theorem getDisplayVal_not_a_sequence (configField : string) (v : value) (w : world) :
  let field := _get (invenioConfig w) configField VUndefined in
  strict_eq field VUndefined = false ->
  is_array field = false ->
  eval (getDisplayVal configField v) w
  = Throw (if strict_eq field VNull
           then TypeError "Cannot read properties of null (reading 'find')"
           else TypeError "_get(...).find is not a function").
Proof.
  intros field Hu Ha. unfold eval. rewrite getDisplayVal_run. fold field. simpl.
  destruct field; simpl in *; try discriminate; reflexivity.
Qed.

(** X15. When the field is a sequence of entries none of which has the
    value asked for, [getDisplayVal] throws the [TypeError] of reading [text]
    off [undefined]. *)
Theorem getDisplayVal_no_match
        (configField : string) (v : value) (a : nat) (entries : list value) (w : world) :
  _get (invenioConfig w) configField VUndefined = VArr a entries ->
  all_present entries = true ->
  none_satisfy (has_value v) entries = true ->
  eval (getDisplayVal configField v) w = Throw (cannot_read VUndefined "text").
Proof.
  intros Hfield Hp Hn.
  unfold eval. rewrite getDisplayVal_run, Hfield. simpl.
  rewrite <- (app_nil_r entries).
  rewrite (found_skip _ _ entries [] Hp Hn). reflexivity.
Qed.

(** X16. A matching entry without a [text] makes [getDisplayVal] return
    [undefined]; that case does not throw. *)
Theorem getDisplayVal_missing_text
        (configField : string) (v e : value) (a : nat) (pre post : list value) (w : world) :
  _get (invenioConfig w) configField VUndefined = VArr a (pre ++ e :: post)%list ->
  all_present pre = true ->
  none_satisfy (has_value v) pre = true ->
  nullish e = false ->
  has_value v e = true ->
  hasProperty e "text" = false ->
  eval (getDisplayVal configField v) w = Normal VUndefined.
Proof.
  intros Hfield Hp Hn He Hv Ht.
  assert (Htext : getProp e "text" = VUndefined).
  { destruct e as [| |b|n|s|a' elems|a' fields]; simpl in *; try reflexivity.
    destruct (assoc "text" fields); [discriminate | reflexivity]. }
  unfold eval. rewrite getDisplayVal_run, Hfield. simpl.
  rewrite (found_skip _ _ pre (e :: post) Hp Hn). simpl.
  unfold has_value in Hv. rewrite He, Hv, He, Htext. reflexivity.
Qed.

End More.

(** ** The further properties at the sample records *)

Lemma renderCallNumber_result_shape_witness :
  eval (renderCallNumber (L := dotted) sample_item) (w0 VUndefined) = Normal (VStr "(QA76)") /\
  truthy (VStr "(QA76)") = negb (strict_eq (VStr "(QA76)") VNull).
Proof.
  split; [reflexivity|].
  exact (proj2 (renderCallNumber_result_shape (L := dotted) sample_item (VStr "(QA76)")
                  (w0 VUndefined) eq_refl)).
Defined.


Lemma renderCallNumber_missing_entry_witness :
  nullish item_null_then_call_number = false /\
  getProp item_null_then_call_number "identifiers"
  = VArr 73 ([isbn_entry] ++ VNull :: [call_number_entry])%list /\
  all_present [isbn_entry] = true /\
  none_satisfy is_call_number [isbn_entry] = true /\
  nullish VNull = true /\
  eval (renderCallNumber (L := dotted) item_null_then_call_number) (w0 VUndefined)
  = Throw (TypeError "Cannot read properties of null (reading 'scheme')").
Proof.
  split; [reflexivity|]. split; [reflexivity|]. split; [reflexivity|].
  split; [reflexivity|]. split; [reflexivity|].
  exact (renderCallNumber_missing_entry (L := dotted) item_null_then_call_number
           VNull 73 [isbn_entry] [call_number_entry] (w0 VUndefined)
           eq_refl eq_refl eq_refl eq_refl eq_refl).
Defined.

Lemma renderCallNumber_not_a_sequence_witness :
  nullish item_text_identifiers = false /\
  nullish (getProp item_text_identifiers "identifiers") = false /\
  is_array (getProp item_text_identifiers "identifiers") = false /\
  eval (renderCallNumber (L := dotted) item_text_identifiers) (w0 VUndefined)
  = Throw (TypeError "identifiers.find is not a function").
Proof.
  split; [reflexivity|]. split; [reflexivity|]. split; [reflexivity|].
  exact (renderCallNumber_not_a_sequence (L := dotted) item_text_identifiers
           (w0 VUndefined) eq_refl eq_refl eq_refl).
Defined.

Lemma renderCallNumber_missing_value_witness :
  nullish item_call_number_without_value = false /\
  getProp item_call_number_without_value "identifiers"
  = VArr 77 ([isbn_entry] ++ call_number_without_value :: [])%list /\
  all_present [isbn_entry] = true /\
  none_satisfy is_call_number [isbn_entry] = true /\
  is_call_number call_number_without_value = true /\
  hasProperty call_number_without_value "value" = false /\
  eval (renderCallNumber (L := dotted) item_call_number_without_value) (w0 VUndefined)
  = Normal (VStr "(undefined)").
Proof.
  split; [reflexivity|]. split; [reflexivity|]. split; [reflexivity|].
  split; [reflexivity|]. split; [reflexivity|]. split; [reflexivity|].
  exact (renderCallNumber_missing_value (L := dotted) item_call_number_without_value
           call_number_without_value 77 [isbn_entry] [] (w0 VUndefined)
           eq_refl eq_refl eq_refl eq_refl eq_refl eq_refl).
Defined.


Lemma shelfLink_without_options_witness :
  nullish VUndefined = true /\
  exists msg, eval (shelfLink (VStr "B12") VUndefined) (w0 VUndefined) = Throw (TypeError msg).
Proof.
  split; [reflexivity|].
  exact (shelfLink_without_options (VStr "B12") VUndefined (w0 VUndefined) eq_refl).
Defined.

Lemma shelfLinkComponent_without_shelf_witness :
  nullish item_shelf_zero = false /\
  eval (renderCallNumber (L := dotted) item_shelf_zero) (w0 VUndefined) = Normal VNull /\
  truthy (_get (L := dotted) item_shelf_zero "shelf" VUndefined) = false /\
  eval (shelfLinkComponent (L := dotted) item_shelf_zero VUndefined) (w0 VUndefined)
  = Normal (JElement Fragment [] [JExpr (VNum 0); JExpr (VStr " "); JExpr VNull]).
Proof.
  split; [reflexivity|]. split; [reflexivity|]. split; [reflexivity|].
  exact (shelfLinkComponent_without_shelf (L := dotted) item_shelf_zero VUndefined VNull
           (w0 VUndefined) eq_refl eq_refl eq_refl).
Defined.



Lemma getDisplayVal_stops_at_first_witness :
  _get (L := dotted) config_with_gaps "mediums" VUndefined
  = VArr 82 ([unspecified_entry] ++ paper_entry :: [VNull; untexted_entry])%list /\
  all_present [unspecified_entry] = true /\
  none_satisfy (has_value (VStr "PAPER")) [unspecified_entry] = true /\
  nullish paper_entry = false /\
  has_value (VStr "PAPER") paper_entry = true /\
  eval (getDisplayVal (L := dotted) "mediums" (VStr "PAPER")) (w0 config_with_gaps)
  = Normal (VStr "Paper").
Proof.
  split; [reflexivity|]. split; [reflexivity|]. split; [reflexivity|].
  split; [reflexivity|]. split; [reflexivity|].
  exact (getDisplayVal_stops_at_first (L := dotted) "mediums" (VStr "PAPER") paper_entry 82
           [unspecified_entry] [VNull; untexted_entry] (w0 config_with_gaps)
           eq_refl eq_refl eq_refl eq_refl eq_refl).
Defined.

Lemma getDisplayVal_missing_entry_witness :
  _get (L := dotted) config_with_gaps "mediums" VUndefined
  = VArr 82 ([unspecified_entry; paper_entry] ++ VNull :: [untexted_entry])%list /\
  all_present [unspecified_entry; paper_entry] = true /\
  none_satisfy (has_value (VStr "DIGITAL")) [unspecified_entry; paper_entry] = true /\
  nullish VNull = true /\
  eval (getDisplayVal (L := dotted) "mediums" (VStr "DIGITAL")) (w0 config_with_gaps)
  = Throw (TypeError "Cannot read properties of null (reading 'value')").
Proof.
  split; [reflexivity|]. split; [reflexivity|]. split; [reflexivity|].
  split; [reflexivity|].
  exact (getDisplayVal_missing_entry (L := dotted) "mediums" (VStr "DIGITAL") VNull 82
           [unspecified_entry; paper_entry] [untexted_entry] (w0 config_with_gaps)
           eq_refl eq_refl eq_refl eq_refl).
Defined.

Lemma getDisplayVal_not_a_sequence_witness :
  strict_eq (_get (L := dotted) config_with_gaps "languages" VUndefined) VUndefined = false /\
  is_array (_get (L := dotted) config_with_gaps "languages" VUndefined) = false /\
  eval (getDisplayVal (L := dotted) "languages" (VStr "ENG")) (w0 config_with_gaps)
  = Throw (TypeError "_get(...).find is not a function").
Proof.
  split; [reflexivity|]. split; [reflexivity|].
  exact (getDisplayVal_not_a_sequence (L := dotted) "languages" (VStr "ENG")
           (w0 config_with_gaps) eq_refl eq_refl).
Defined.

Lemma getDisplayVal_no_match_witness :
  _get (L := dotted) sample_config "ITEMS.mediums" VUndefined
  = VArr 3 [unspecified_entry; paper_entry] /\
  all_present [unspecified_entry; paper_entry] = true /\
  none_satisfy (has_value (VStr "DIGITAL")) [unspecified_entry; paper_entry] = true /\
  eval (getDisplayVal (L := dotted) "ITEMS.mediums" (VStr "DIGITAL")) (w0 sample_config)
  = Throw (TypeError "Cannot read properties of undefined (reading 'text')").
Proof.
  split; [reflexivity|]. split; [reflexivity|]. split; [reflexivity|].
  exact (getDisplayVal_no_match (L := dotted) "ITEMS.mediums" (VStr "DIGITAL") 3
           [unspecified_entry; paper_entry] (w0 sample_config) eq_refl eq_refl eq_refl).
Defined.

Lemma getDisplayVal_missing_text_witness :
  _get (L := dotted) (VObj 84 [("mediums", VArr 85 [paper_entry; untexted_entry])])
       "mediums" VUndefined
  = VArr 85 ([paper_entry] ++ untexted_entry :: [])%list /\
  all_present [paper_entry] = true /\
  none_satisfy (has_value (VStr "DIGITAL")) [paper_entry] = true /\
  nullish untexted_entry = false /\
  has_value (VStr "DIGITAL") untexted_entry = true /\
  hasProperty untexted_entry "text" = false /\
  eval (getDisplayVal (L := dotted) "mediums" (VStr "DIGITAL"))
       (w0 (VObj 84 [("mediums", VArr 85 [paper_entry; untexted_entry])]))
  = Normal VUndefined.
Proof.
  split; [reflexivity|]. split; [reflexivity|]. split; [reflexivity|].
  split; [reflexivity|]. split; [reflexivity|]. split; [reflexivity|].
  exact (getDisplayVal_missing_text (L := dotted) "mediums" (VStr "DIGITAL") untexted_entry 85
           [paper_entry] []
           (w0 (VObj 84 [("mediums", VArr 85 [paper_entry; untexted_entry])]))
           eq_refl eq_refl eq_refl eq_refl eq_refl eq_refl).
Defined.

(** ** The helpers over the heap: what a call reads and what it leaves *)

Lemma heap_lookup_app (h f : Heap.heap) (l : nat) :
  l < List.length h -> Heap.lookup (h ++ f)%list l = Heap.lookup h l.
Proof. intros H. unfold Heap.lookup. apply app_nth1. exact H. Qed.

Lemma heap_lookup_fresh (h : Heap.heap) (o : Heap.object) (f : Heap.heap) :
  Heap.lookup (h ++ o :: f)%list (List.length h) = o.
Proof.
  unfold Heap.lookup. rewrite app_nth2 by lia.
  rewrite Nat.sub_diag. reflexivity.
Qed.

Lemma heap_valid_lookup (h : Heap.heap) (l : nat) :
  Heap.closed h = true -> l < List.length h ->
  Heap.valid_object h (Heap.lookup h l) = true.
Proof.
  intros Hc Hl. unfold Heap.closed in Hc. rewrite forallb_forall in Hc.
  apply Hc. unfold Heap.lookup. apply nth_In. exact Hl.
Qed.

Lemma heap_valid_ref (h : Heap.heap) (l : nat) :
  Heap.valid h (Heap.Ref l) = true -> l < List.length h.
Proof. simpl. intros H. apply Nat.ltb_lt. exact H. Qed.

Lemma heap_assoc_valid (h : Heap.heap) (k : string)
      (fields : list (string * Heap.hvalue)) (v : Heap.hvalue) :
  forallb (fun kv => Heap.valid h (snd kv)) fields = true ->
  Heap.assoc k fields = Some v -> Heap.valid h v = true.
Proof.
  induction fields as [|[k' x] rest IH]; simpl; [discriminate|].
  intros H. apply andb_true_iff in H. destruct H as [Hx Hrest].
  destruct (String.eqb k k'); [intros E; injection E as <-; exact Hx | exact (IH Hrest)].
Qed.

Lemma heap_nth_valid (h : Heap.heap) (elems : list Heap.hvalue) (i : nat) :
  forallb (Heap.valid h) elems = true ->
  Heap.valid h (nth i elems Heap.Undefined) = true.
Proof.
  intros H. rewrite forallb_forall in H.
  destruct (Nat.lt_ge_cases i (List.length elems)) as [Hi|Hi].
  - apply H. apply nth_In. exact Hi.
  - rewrite nth_overflow by exact Hi. reflexivity.
Qed.

Lemma heap_getProp_app (h f : Heap.heap) (base : Heap.hvalue) (k : string) :
  Heap.valid h base = true ->
  Heap.getProp (h ++ f)%list base k = Heap.getProp h base k.
Proof.
  destruct base as [| |b|n|s|l]; try reflexivity.
  intros H. apply heap_valid_ref in H. unfold Heap.getProp.
  rewrite (heap_lookup_app h f l H). reflexivity.
Qed.

Lemma heap_getProp_valid (h : Heap.heap) (base : Heap.hvalue) (k : string) :
  Heap.closed h = true -> Heap.valid h base = true ->
  Heap.valid h (Heap.getProp h base k) = true.
Proof.
  intros Hc Hb. destruct base as [| |b|n|s|l]; try reflexivity.
  - simpl. destruct (String.eqb k "length"); [reflexivity|].
    destruct (index_of_key k) as [i|]; [|reflexivity].
    unfold Heap.string_at. destruct (String.get i s); reflexivity.
  - apply heap_valid_ref in Hb.
    pose proof (heap_valid_lookup h l Hc Hb) as Ho.
    unfold Heap.getProp. destruct (Heap.lookup h l) as [elems|fields]; simpl in Ho.
    + destruct (String.eqb k "length"); [reflexivity|].
      destruct (index_of_key k) as [i|]; [|reflexivity].
      apply heap_nth_valid. exact Ho.
    + destruct (Heap.assoc k fields) as [v|] eqn:Ha; [|reflexivity].
      exact (heap_assoc_valid h k fields v Ho Ha).
Qed.

Lemma heap_array_elems_app (h f : Heap.heap) (recv : Heap.hvalue) :
  Heap.valid h recv = true ->
  Heap.array_elems (h ++ f)%list recv = Heap.array_elems h recv.
Proof.
  destruct recv as [| |b|n|s|l]; try reflexivity.
  intros H. apply heap_valid_ref in H. unfold Heap.array_elems.
  rewrite (heap_lookup_app h f l H). reflexivity.
Qed.

Lemma heap_array_elems_valid (h : Heap.heap) (recv : Heap.hvalue)
      (elems : list Heap.hvalue) :
  Heap.closed h = true -> Heap.valid h recv = true ->
  Heap.array_elems h recv = Some elems ->
  forallb (Heap.valid h) elems = true.
Proof.
  intros Hc Hv. destruct recv as [| |b|n|s|l]; try discriminate.
  apply heap_valid_ref in Hv. pose proof (heap_valid_lookup h l Hc Hv) as Ho.
  unfold Heap.array_elems. destruct (Heap.lookup h l); [|discriminate].
  intros E. injection E as <-. exact Ho.
Qed.

Lemma heap_traverse_ext {A B : Type} (f g : A -> Heap.outcome B) (l : list A) :
  (forall a, In a l -> f a = g a) -> Heap.traverse f l = Heap.traverse g l.
Proof.
  induction l as [|a rest IH]; intros H; simpl; [reflexivity|].
  rewrite (H a (or_introl eq_refl)).
  rewrite IH by (intros x Hx; apply H; right; exact Hx). reflexivity.
Qed.

(** Converting a value of the heap [h] to text reads [h] only: objects added
    to the heap, and arrays being joined that are not of [h], make no
    difference. *)
Lemma heap_ToString_app (fuel : nat) :
  forall (h f : Heap.heap) (s1 s2 : list nat) (v : Heap.hvalue),
    Heap.closed h = true -> Heap.valid h v = true ->
    (forall l, l < List.length h ->
               existsb (Nat.eqb l) s1 = existsb (Nat.eqb l) s2) ->
    Heap.ToString fuel (h ++ f)%list s1 v = Heap.ToString fuel h s2 v.
Proof.
  induction fuel as [|fuel IH]; intros h f s1 s2 v Hc Hv Hs;
    destruct v as [| |b|n|s|l]; try reflexivity;
    apply heap_valid_ref in Hv;
    pose proof (heap_valid_lookup h l Hc Hv) as Ho;
    cbn [Heap.ToString]; rewrite (heap_lookup_app h f l Hv), (Hs l Hv);
    destruct (Heap.lookup h l) as [elems|fields]; try reflexivity.
  destruct (existsb (Nat.eqb l) s2); [reflexivity|].
  simpl in Ho. rewrite forallb_forall in Ho.
  erewrite heap_traverse_ext; [reflexivity|].
  intros e He. cbv beta. destruct (Heap.nullish e); [reflexivity|].
  apply IH; [exact Hc | exact (Ho e He) |].
  intros l' Hl'. simpl. rewrite (Hs l' Hl'). reflexivity.
Qed.

(** The same for the JSON text. *)
Lemma heap_Serialize_app (fuel : nat) :
  forall (h f : Heap.heap) (s1 s2 : list nat) (v : Heap.hvalue),
    Heap.closed h = true -> Heap.valid h v = true ->
    (forall l, l < List.length h ->
               existsb (Nat.eqb l) s1 = existsb (Nat.eqb l) s2) ->
    Heap.SerializeJSONProperty fuel (h ++ f)%list s1 v
    = Heap.SerializeJSONProperty fuel h s2 v.
Proof.
  induction fuel as [|fuel IH]; intros h f s1 s2 v Hc Hv Hs;
    destruct v as [| |b|n|s|l]; try reflexivity;
    apply heap_valid_ref in Hv;
    pose proof (heap_valid_lookup h l Hc Hv) as Ho;
    cbn [Heap.SerializeJSONProperty]; rewrite (Hs l Hv);
    destruct (existsb (Nat.eqb l) s2); try reflexivity.
  rewrite (heap_lookup_app h f l Hv).
  assert (Hs' : forall l', l' < List.length h ->
                  existsb (Nat.eqb l') (l :: s1) = existsb (Nat.eqb l') (l :: s2)).
  { intros l' Hl'. simpl. rewrite (Hs l' Hl'). reflexivity. }
  destruct (Heap.lookup h l) as [elems|fields]; simpl in Ho;
    rewrite forallb_forall in Ho.
  - erewrite heap_traverse_ext; [reflexivity|].
    intros e He. cbv beta.
    rewrite (IH h f (l :: s1) (l :: s2) e Hc (Ho e He) Hs'). reflexivity.
  - erewrite heap_traverse_ext; [reflexivity|].
    intros kv Hkv. cbv beta.
    rewrite (IH h f (l :: s1) (l :: s2) (snd kv) Hc (Ho kv Hkv) Hs'). reflexivity.
Qed.

Lemma heap_found_app (h f : Heap.heap) (key : string) (p : Heap.hvalue -> bool)
      (elems : list Heap.hvalue) :
  forallb (Heap.valid h) elems = true ->
  Heap.found (h ++ f)%list key p elems = Heap.found h key p elems.
Proof.
  induction elems as [|e rest IH]; simpl; intros H; [reflexivity|].
  apply andb_true_iff in H. destruct H as [He Hrest].
  rewrite (heap_getProp_app h f e key He), (IH Hrest). reflexivity.
Qed.

Lemma heap_found_valid (h : Heap.heap) (key : string) (p : Heap.hvalue -> bool)
      (elems : list Heap.hvalue) (e : Heap.hvalue) :
  forallb (Heap.valid h) elems = true ->
  Heap.found h key p elems = Heap.Returns e -> Heap.valid h e = true.
Proof.
  induction elems as [|x rest IH]; simpl; intros H.
  - intros E. injection E as <-. reflexivity.
  - apply andb_true_iff in H. destruct H as [Hx Hrest].
    destruct (Heap.nullish x); [discriminate|].
    destruct (p (Heap.getProp h x key)); [|exact (IH Hrest)].
    intros E. injection E as <-. exact Hx.
Qed.

Lemma heap_find_loop_found (key : string) (p : Heap.hvalue -> bool)
      (elems : list Heap.hvalue) (st : Heap.state) :
  Heap.find_loop
    (fun e => Heap.bind (Heap.member e key) (fun x => Heap.ret (Heap.Bool (p x))))
    elems st
  = (Heap.found (Heap.objects st) key p elems, st).
Proof.
  induction elems as [|e rest IH]; simpl; [reflexivity|].
  unfold Heap.bind at 1. unfold Heap.bind at 1. unfold Heap.member.
  destruct (Heap.nullish e); simpl; [reflexivity|].
  destruct (p (Heap.getProp (Heap.objects st) e key)); [reflexivity | exact IH].
Qed.

Lemma heap_truthy_not_nullish (v : Heap.hvalue) :
  Heap.truthy v = true -> Heap.nullish v = false.
Proof. destruct v; simpl; congruence. Qed.

Section HeapFacts.
Context {E : Engine} {L : LodashPath}.

Lemma heap_get_plain (k : string) (object d : Heap.hvalue) (st : Heap.state) :
  reIsPlainProp k = true ->
  Heap._get object k d st = (Heap.Returns (Heap.get_own (Heap.objects st) object k d), st).
Proof.
  intros Hk. unfold Heap._get, Heap.read, Heap.baseGet, Heap.castPath, Heap.isKey,
               Heap.get_own.
  rewrite Hk. simpl. destruct (Heap.nullish object); reflexivity.
Qed.

Lemma heap_get_own_app (h f : Heap.heap) (object d : Heap.hvalue) (k : string) :
  Heap.valid h object = true ->
  Heap.get_own (h ++ f)%list object k d = Heap.get_own h object k d.
Proof.
  intros H. unfold Heap.get_own. rewrite (heap_getProp_app h f object k H). reflexivity.
Qed.

Lemma heap_get_own_valid (h : Heap.heap) (object d : Heap.hvalue) (k : string) :
  Heap.closed h = true -> Heap.valid h object = true -> Heap.valid h d = true ->
  Heap.valid h (Heap.get_own h object k d) = true.
Proof.
  intros Hc Ho Hd. unfold Heap.get_own.
  destruct (Heap.nullish object); [exact Hd|].
  destruct (Heap.strict_eq (Heap.getProp h object k) Heap.Undefined); [exact Hd|].
  apply heap_getProp_valid; assumption.
Qed.

Lemma heap_call_number_from_app (h f : Heap.heap) (identifiers : Heap.hvalue) :
  Heap.closed h = true -> Heap.valid h identifiers = true ->
  Heap.call_number_from (h ++ f)%list identifiers = Heap.call_number_from h identifiers.
Proof.
  intros Hc Hv. unfold Heap.call_number_from.
  rewrite (heap_array_elems_app h f identifiers Hv).
  destruct (Heap.strict_eq identifiers Heap.Null); [reflexivity|].
  destruct (Heap.nullish identifiers); [reflexivity|].
  destruct (Heap.array_elems h identifiers) as [elems|] eqn:Ha; [|reflexivity].
  pose proof (heap_array_elems_valid h identifiers elems Hc Hv Ha) as He.
  rewrite (heap_found_app h f _ _ elems He).
  destruct (Heap.found h "scheme" _ elems) as [e|x] eqn:Hf; [|reflexivity].
  pose proof (heap_found_valid h _ _ elems e He Hf) as Hev.
  destruct (Heap.truthy e); [|reflexivity].
  rewrite (heap_getProp_app h f e "value" Hev).
  rewrite (heap_ToString_app stack_limit h f [] [] _ Hc
             (heap_getProp_valid h e "value" Hc Hev) (fun _ _ => eq_refl)).
  reflexivity.
Qed.

Lemma heap_call_number_from_fresh (h f : Heap.heap) :
  Heap.call_number_from (h ++ Heap.Arr [] :: f)%list (Heap.Ref (List.length h))
  = Heap.Returns Heap.Null.
Proof.
  unfold Heap.call_number_from, Heap.array_elems. simpl.
  rewrite heap_lookup_fresh. reflexivity.
Qed.

(** A result of [renderCallNumber] is [null] or a text. *)
Lemma heap_call_number_from_primitive (h : Heap.heap) (identifiers v : Heap.hvalue) :
  Heap.call_number_from h identifiers = Heap.Returns v ->
  v = Heap.Null \/ exists s, v = Heap.Str s.
Proof.
  unfold Heap.call_number_from.
  destruct (Heap.strict_eq identifiers Heap.Null); [intros H; left; congruence|].
  destruct (Heap.nullish identifiers); [discriminate|].
  destruct (Heap.array_elems h identifiers) as [elems|]; [|discriminate].
  destruct (Heap.found h "scheme" _ elems) as [e|x]; [|discriminate].
  destruct (Heap.truthy e); [|intros H; left; congruence].
  destruct (Heap.ToString stack_limit h [] _) as [t|x]; [|discriminate].
  intros H. right. eexists. injection H as <-. reflexivity.
Qed.

Lemma heap_renderCallNumber_run (item : Heap.hvalue) (st : Heap.state) :
  let h' := (Heap.objects st ++ [Heap.Arr []])%list in
  Heap.renderCallNumber item st =
    (Heap.call_number_from h'
       (Heap.get_own h' item "identifiers" (Heap.Ref (List.length (Heap.objects st)))),
     Heap.mkState h' (Heap.invenioConfig st)).
Proof.
  intros h'. unfold Heap.renderCallNumber, Heap.allocate.
  unfold Heap.bind at 1. unfold Heap.bind at 1.
  rewrite heap_get_plain by reflexivity. cbn [Heap.objects]. fold h'.
  set (identifiers := Heap.get_own h' item "identifiers" _).
  set (st' := Heap.mkState h' (Heap.invenioConfig st)).
  unfold Heap.call_number_from.
  destruct (Heap.strict_eq identifiers Heap.Null); [reflexivity|].
  unfold Heap.call_find.
  destruct (Heap.nullish identifiers); [reflexivity|].
  unfold Heap.bind at 1. unfold Heap.bind at 1. unfold Heap.read at 1.
  change (Heap.objects st') with h'.
  destruct (Heap.array_elems h' identifiers) as [elems|]; [|reflexivity].
  rewrite heap_find_loop_found. change (Heap.objects st') with h'.
  destruct (Heap.found h' "scheme" _ elems) as [e|x]; [|reflexivity].
  destruct (Heap.truthy e) eqn:Ht; [|reflexivity].
  unfold Heap.bind, Heap.member, Heap.read, Heap.to_text, Heap.attempt.
  rewrite (heap_truthy_not_nullish e Ht). change (Heap.objects st') with h'.
  destruct (Heap.ToString stack_limit h' [] (Heap.getProp h' e "value"));
    reflexivity.
Qed.

(** [renderCallNumber] on a valid item, in any state that extends the closed
    heap [h], computes the call number that [h] holds for the item. *)
Lemma heap_renderCallNumber_eval (h f : Heap.heap) (c item : Heap.hvalue) :
  Heap.closed h = true -> Heap.valid h item = true ->
  Heap.eval (Heap.renderCallNumber item) (Heap.mkState (h ++ f)%list c)
  = Heap.call_number_of h item.
Proof.
  intros Hc Hv. unfold Heap.eval. rewrite heap_renderCallNumber_run.
  cbn [fst Heap.objects]. rewrite <- app_assoc.
  rewrite (heap_get_own_app h _ item _ "identifiers" Hv).
  unfold Heap.get_own, Heap.call_number_of.
  assert (Hfresh : Heap.call_number_from (h ++ f ++ [Heap.Arr []])%list
                     (Heap.Ref (List.length (h ++ f)%list)) = Heap.Returns Heap.Null).
  { rewrite app_assoc. apply heap_call_number_from_fresh. }
  destruct (Heap.nullish item); [exact Hfresh|].
  destruct (Heap.strict_eq (Heap.getProp h item "identifiers") Heap.Undefined);
    [exact Hfresh|].
  apply heap_call_number_from_app; [exact Hc|].
  apply heap_getProp_valid; assumption.
Qed.

Lemma heap_shelfLink_run (shelfNumber options : Heap.hvalue) (st : Heap.state) :
  Heap.shelfLink shelfNumber options st
  = (Heap.link_of (Heap.objects st) shelfNumber options, st).
Proof.
  unfold Heap.shelfLink, Heap.link_of, Heap.destructure.
  destruct (Heap.nullish options); [reflexivity|].
  unfold Heap.bind at 1. unfold Heap.read at 1.
  unfold Heap.bind at 1. unfold Heap.read at 1.
  unfold Heap.bind at 1. unfold Heap.to_text at 1, Heap.attempt at 1.
  cbv zeta.
  destruct (Heap.ToString stack_limit (Heap.objects st) [] shelfNumber) as [shelf|x];
    [|reflexivity].
  destruct (negb (Heap.strict_eq _ Heap.Null)).
  - unfold Heap.bind, Heap.JSON_stringify, Heap.to_text, Heap.attempt, Heap.json_text,
           Heap.with_iframe, Heap.ret.
    destruct (Heap.SerializeJSONProperty stack_limit (Heap.objects st) [] _)
      as [[json|]|x]; try reflexivity; destruct stack_limit; reflexivity.
  - reflexivity.
Qed.

Lemma heap_link_of_app (h f : Heap.heap) (shelfNumber options : Heap.hvalue) :
  Heap.closed h = true ->
  Heap.valid h shelfNumber = true -> Heap.valid h options = true ->
  Heap.link_of (h ++ f)%list shelfNumber options = Heap.link_of h shelfNumber options.
Proof.
  intros Hc Hs Ho. unfold Heap.link_of, Heap.json_text.
  rewrite !(heap_getProp_app h f options _ Ho).
  rewrite (heap_ToString_app stack_limit h f [] [] shelfNumber Hc Hs (fun _ _ => eq_refl)).
  destruct (Heap.nullish options); [reflexivity|].
  destruct (Heap.ToString stack_limit h [] shelfNumber); [|reflexivity].
  match goal with
  | |- context [Heap.SerializeJSONProperty stack_limit (h ++ f)%list [] ?pc] =>
      assert (Hpc : Heap.valid h pc = true)
  end.
  { destruct (Heap.strict_eq (Heap.getProp h options "popupContent") Heap.Undefined);
      [reflexivity|]. apply heap_getProp_valid; assumption. }
  rewrite (heap_Serialize_app stack_limit h f [] [] _ Hc Hpc (fun _ _ => eq_refl)).
  reflexivity.
Qed.

(** The link for a fresh options object that holds a fresh popup object. *)
Lemma heap_link_of_fresh (h g : Heap.heap) (shelfNumber title callNumber : Heap.hvalue) :
  Heap.closed h = true ->
  Heap.valid h shelfNumber = true ->
  Heap.valid h title = true -> Heap.valid h callNumber = true ->
  Heap.link_of
    ((h ++ g) ++ [Heap.Obj [("Title", title); ("Call number", callNumber)];
                  Heap.Obj [("popupContent", Heap.Ref (List.length (h ++ g)%list))]])%list
    shelfNumber (Heap.Ref (S (List.length (h ++ g)%list)))
  = match Heap.ToString stack_limit h [] shelfNumber with
    | Heap.Throws x => Heap.Throws x
    | Heap.Returns shelf =>
        match Heap.popup_text h title callNumber with
        | Heap.Throws x => Heap.Throws x
        | Heap.Returns text =>
            Heap.Returns
              (Heap.Str (("https://maps.web.cern.ch/?n=['SHELF " ++ shelf ++ "']")
                         ++ "&popupContent=" ++ text))
        end
    end.
Proof.
  intros Hc Hs Ht Hcn.
  set (n := List.length (h ++ g)%list).
  set (popup := Heap.Obj [("Title", title); ("Call number", callNumber)]).
  set (options := Heap.Obj [("popupContent", Heap.Ref n)]).
  set (H := ((h ++ g) ++ [popup; options])%list).
  assert (Hopt : Heap.lookup H (S n) = options).
  { unfold H. change [popup; options] with ([popup] ++ [options])%list.
    rewrite app_assoc.
    replace (S n) with (List.length ((h ++ g) ++ [popup])%list)
      by (rewrite length_app; simpl; unfold n; lia).
    apply heap_lookup_fresh. }
  assert (Hpop : Heap.lookup H n = popup) by apply heap_lookup_fresh.
  assert (Hpc : Heap.getProp H (Heap.Ref (S n)) "popupContent" = Heap.Ref n).
  { unfold Heap.getProp. rewrite Hopt. reflexivity. }
  assert (Hif : Heap.getProp H (Heap.Ref (S n)) "iframe" = Heap.Undefined).
  { unfold Heap.getProp. rewrite Hopt. reflexivity. }
  assert (HH : H = (h ++ (g ++ [popup; options]))%list)
    by (unfold H; rewrite <- app_assoc; reflexivity).
  assert (Hstack : forall l, l < List.length h ->
                     existsb (Nat.eqb l) [n] = existsb (Nat.eqb l) []).
  { intros l Hl. simpl. rewrite orb_false_r. apply Nat.eqb_neq.
    unfold n. rewrite length_app. lia. }
  unfold Heap.link_of. rewrite Hpc, Hif.
  cbn [Heap.nullish Heap.strict_eq Heap.truthy negb Heap.with_iframe].
  assert (Hshelf : Heap.ToString stack_limit H [] shelfNumber
                   = Heap.ToString stack_limit h [] shelfNumber).
  { rewrite HH. apply heap_ToString_app; auto. }
  rewrite Hshelf.
  destruct (Heap.ToString stack_limit h [] shelfNumber) as [shelf|x]; [|reflexivity].
  unfold Heap.json_text, Heap.popup_text.
  destruct stack_limit as [|fuel]; [reflexivity|].
  cbn [Heap.SerializeJSONProperty existsb]. rewrite Hpop. unfold popup.
  cbn [Heap.traverse snd fst].
  rewrite HH.
  rewrite (heap_Serialize_app fuel h _ [n] [] title Hc Ht Hstack).
  rewrite (heap_Serialize_app fuel h _ [n] [] callNumber Hc Hcn Hstack).
  destruct (Heap.SerializeJSONProperty fuel h [] title) as [[t|]|x];
    destruct (Heap.SerializeJSONProperty fuel h [] callNumber) as [[c|]|y];
    reflexivity.
Qed.

Lemma heap_call_number_of_valid (h : Heap.heap) (item v : Heap.hvalue) :
  Heap.call_number_of h item = Heap.Returns v -> Heap.valid h v = true.
Proof.
  unfold Heap.call_number_of.
  destruct (Heap.nullish item); [intros H; injection H as <-; reflexivity|].
  destruct (Heap.strict_eq _ Heap.Undefined); [intros H; injection H as <-; reflexivity|].
  intros H. apply heap_call_number_from_primitive in H.
  destruct H as [->|[s ->]]; reflexivity.
Qed.

Lemma heap_renderCallNumber_exec (item : Heap.hvalue) (st : Heap.state) :
  Heap.exec (Heap.renderCallNumber item) st
  = Heap.mkState (Heap.objects st ++ [Heap.Arr []])%list (Heap.invenioConfig st).
Proof. unfold Heap.exec. rewrite heap_renderCallNumber_run. reflexivity. Qed.

(** [shelfLinkComponent] on a valid item, in any state that extends the
    closed heap [h], computes the fragment that [h] holds for the item. *)
Lemma heap_shelfLinkComponent_eval (h f : Heap.heap) (c item iconName : Heap.hvalue) :
  Heap.closed h = true -> Heap.valid h item = true ->
  Heap.eval (Heap.shelfLinkComponent item iconName) (Heap.mkState (h ++ f)%list c)
  = Heap.fragment_of h item iconName.
Proof.
  intros Hc Hv.
  set (st := Heap.mkState (h ++ f)%list c).
  pose proof (heap_renderCallNumber_eval h f c item Hc Hv) as Hcn.
  pose proof (heap_renderCallNumber_exec item st) as Hst.
  fold st in Hcn. unfold Heap.eval in Hcn. unfold Heap.exec in Hst.
  unfold Heap.eval, Heap.shelfLinkComponent, Heap.fragment_of.
  unfold Heap.bind at 1. rewrite heap_get_plain by reflexivity.
  change (Heap.objects st) with (h ++ f)%list.
  rewrite (heap_get_own_app h f item _ "shelf" Hv).
  assert (Hshelf : Heap.valid h (Heap.get_own h item "shelf" Heap.Undefined) = true)
    by (apply heap_get_own_valid; auto).
  set (shelfNumber := Heap.get_own h item "shelf" Heap.Undefined) in *.
  unfold Heap.bind at 1.
  destruct (Heap.renderCallNumber item st) as [r st1] eqn:Hrun.
  simpl in Hcn, Hst. subst r st1.
  destruct (Heap.call_number_of h item) as [cn|x] eqn:Hcall; [|reflexivity].
  pose proof (heap_call_number_of_valid h item cn Hcall) as Hcnv.
  unfold Heap.bind at 1. unfold Heap.member.
  destruct (Heap.nullish item); [reflexivity|].
  unfold Heap.read at 1. cbn [Heap.objects].
  rewrite <- app_assoc. rewrite (heap_getProp_app h _ item "title" Hv).
  assert (Htitle : Heap.valid h (Heap.getProp h item "title") = true)
    by (apply heap_getProp_valid; auto).
  set (title := Heap.getProp h item "title") in *.
  unfold Heap.bind at 1. unfold Heap.allocate at 1. cbn [Heap.objects Heap.invenioConfig].
  unfold Heap.bind at 1. unfold Heap.allocate at 1. cbn [Heap.objects Heap.invenioConfig].
  unfold Heap.bind at 1. rewrite heap_shelfLink_run. cbn [Heap.objects].
  set (g := (f ++ [Heap.Arr []])%list).
  set (popup := Heap.Obj [("Title", title); ("Call number", cn)]).
  replace (List.length ((h ++ g) ++ [popup])%list) with (S (List.length (h ++ g)%list))
    by (rewrite (length_app (h ++ g)%list); simpl; lia).
  rewrite <- (app_assoc (h ++ g)%list [popup]). cbn [app].
  unfold popup.
  rewrite (heap_link_of_fresh h g shelfNumber title cn Hc Hshelf Htitle Hcnv).
  destruct (Heap.ToString stack_limit h [] shelfNumber) as [shelf|x]; [|reflexivity].
  destruct (Heap.popup_text h title cn) as [text|x]; reflexivity.
Qed.

End HeapFacts.

(** *** Computations that only allocate *)

Lemma heap_ret_allocates {A} (a : A) : Heap.only_allocates (Heap.ret a).
Proof. intros st. exists []. unfold Heap.exec, Heap.ret. simpl. rewrite app_nil_r.
       destruct st; reflexivity. Qed.

Lemma heap_throw_allocates {A} (e : Heap.error) : Heap.only_allocates (@Heap.throw A e).
Proof. intros st. exists []. unfold Heap.exec, Heap.throw. simpl. rewrite app_nil_r.
       destruct st; reflexivity. Qed.

Lemma heap_read_allocates {A} (f : Heap.heap -> A) : Heap.only_allocates (Heap.read f).
Proof. intros st. exists []. unfold Heap.exec, Heap.read. simpl. rewrite app_nil_r.
       destruct st; reflexivity. Qed.

Lemma heap_attempt_allocates {A} (f : Heap.heap -> Heap.outcome A) :
  Heap.only_allocates (Heap.attempt f).
Proof. intros st. exists []. unfold Heap.exec, Heap.attempt. simpl. rewrite app_nil_r.
       destruct st; reflexivity. Qed.

Lemma heap_allocate_allocates (o : Heap.object) : Heap.only_allocates (Heap.allocate o).
Proof. intros st. exists [o]. reflexivity. Qed.

Lemma heap_bind_allocates {A B} (m : Heap.M A) (k : A -> Heap.M B) :
  Heap.only_allocates m -> (forall a, Heap.only_allocates (k a)) ->
  Heap.only_allocates (Heap.bind m k).
Proof.
  intros Hm Hk st. destruct (Hm st) as [f1 H1].
  unfold Heap.exec in *. unfold Heap.bind.
  destruct (m st) as [[a|e] st1]; simpl in H1; subst st1.
  - destruct (Hk a (Heap.mkState (Heap.objects st ++ f1)%list (Heap.invenioConfig st)))
      as [f2 H2].
    unfold Heap.exec in H2. rewrite H2. simpl. exists (f1 ++ f2)%list.
    rewrite app_assoc. reflexivity.
  - exists f1. reflexivity.
Qed.

Lemma heap_member_allocates (base : Heap.hvalue) (k : string) :
  Heap.only_allocates (Heap.member base k).
Proof.
  unfold Heap.member. destruct (Heap.nullish base);
    [apply heap_throw_allocates | apply heap_read_allocates].
Qed.

Lemma heap_find_loop_allocates (predicate : Heap.hvalue -> Heap.M Heap.hvalue)
      (elems : list Heap.hvalue) :
  (forall e, Heap.only_allocates (predicate e)) ->
  Heap.only_allocates (Heap.find_loop predicate elems).
Proof.
  intros Hp. induction elems as [|e rest IH]; simpl.
  - apply heap_ret_allocates.
  - apply heap_bind_allocates; [apply Hp|].
    intros t. destruct (Heap.truthy t); [apply heap_ret_allocates | exact IH].
Qed.

Lemma heap_call_find_allocates (callee : string) (recv : Heap.hvalue)
      (predicate : Heap.hvalue -> Heap.M Heap.hvalue) :
  (forall e, Heap.only_allocates (predicate e)) ->
  Heap.only_allocates (Heap.call_find callee recv predicate).
Proof.
  intros Hp. unfold Heap.call_find.
  destruct (Heap.nullish recv); [apply heap_throw_allocates|].
  apply heap_bind_allocates; [apply heap_read_allocates|].
  intros [elems|]; [apply heap_find_loop_allocates; exact Hp | apply heap_throw_allocates].
Qed.

Lemma heap_destructure_allocates (options : Heap.hvalue) (k : string) (d : Heap.hvalue) :
  Heap.only_allocates (Heap.destructure options k d).
Proof.
  unfold Heap.destructure. destruct (Heap.nullish options);
    [apply heap_throw_allocates | apply heap_read_allocates].
Qed.

Section HeapPurity.
Context {E : Engine} {L : LodashPath}.

Lemma heap_renderCallNumber_allocates (item : Heap.hvalue) :
  Heap.only_allocates (Heap.renderCallNumber item).
Proof.
  intros st. exists [Heap.Arr []]. apply heap_renderCallNumber_exec.
Qed.

Lemma heap_shelfLink_unchanged (shelfNumber options : Heap.hvalue) (st : Heap.state) :
  Heap.exec (Heap.shelfLink shelfNumber options) st = st.
Proof. unfold Heap.exec. rewrite heap_shelfLink_run. reflexivity. Qed.

Lemma heap_shelfLinkComponent_allocates (item iconName : Heap.hvalue) :
  Heap.only_allocates (Heap.shelfLinkComponent item iconName).
Proof.
  unfold Heap.shelfLinkComponent.
  apply heap_bind_allocates; [apply heap_read_allocates|]. intros shelfNumber.
  apply heap_bind_allocates; [apply heap_renderCallNumber_allocates|]. intros callNumber.
  apply heap_bind_allocates; [apply heap_member_allocates|]. intros title.
  apply heap_bind_allocates; [apply heap_allocate_allocates|]. intros popupContent.
  apply heap_bind_allocates; [apply heap_allocate_allocates|]. intros options.
  apply heap_bind_allocates; [|intros link; apply heap_ret_allocates].
  intros st. exists []. rewrite heap_shelfLink_unchanged, app_nil_r.
  destruct st; reflexivity.
Qed.

Lemma heap_getDisplayVal_allocates (configField : string) (v : Heap.hvalue) :
  Heap.only_allocates (Heap.getDisplayVal configField v).
Proof.
  unfold Heap.getDisplayVal.
  apply heap_bind_allocates.
  { intros st. exists []. unfold Heap.exec, Heap.read_invenioConfig. simpl.
    rewrite app_nil_r. destruct st; reflexivity. }
  intros config.
  apply heap_bind_allocates; [apply heap_read_allocates|]. intros field.
  apply heap_bind_allocates; [|intros entry; apply heap_member_allocates].
  apply heap_call_find_allocates. intros e.
  apply heap_bind_allocates; [apply heap_member_allocates|].
  intros x. apply heap_ret_allocates.
Qed.

(** C8. Over a heap of mutable objects, in a state whose heap is closed and
    for arguments that are values of that heap: [renderCallNumber],
    [shelfLink] and [shelfLinkComponent] leave every object that was in the
    heap as it was, the arguments and the configuration table among them, and
    leave the global that holds the table as it was; all they do to the state
    is to add new objects ([shelfLink] adds none).  What a call completes with
    is decided by the objects the heap had: it is the same in every state that
    has them, whatever was allocated since; so a second call with the same
    arguments, made in the state the first one left, completes as the first
    did. *)
Theorem helpers_pure_over_the_heap (st : Heap.state) :
  Heap.closed (Heap.objects st) = true ->
  (forall item,
     Heap.valid (Heap.objects st) item = true ->
     (exists fresh,
        Heap.exec (Heap.renderCallNumber item) st
        = Heap.mkState (Heap.objects st ++ fresh)%list (Heap.invenioConfig st)) /\
     (forall more config,
        Heap.eval (Heap.renderCallNumber item)
                  (Heap.mkState (Heap.objects st ++ more)%list config)
        = Heap.eval (Heap.renderCallNumber item) st) /\
     Heap.eval (Heap.renderCallNumber item) (Heap.exec (Heap.renderCallNumber item) st)
     = Heap.eval (Heap.renderCallNumber item) st) /\
  (forall shelfNumber options,
     Heap.valid (Heap.objects st) shelfNumber = true ->
     Heap.valid (Heap.objects st) options = true ->
     Heap.exec (Heap.shelfLink shelfNumber options) st = st /\
     (forall more config,
        Heap.eval (Heap.shelfLink shelfNumber options)
                  (Heap.mkState (Heap.objects st ++ more)%list config)
        = Heap.eval (Heap.shelfLink shelfNumber options) st) /\
     Heap.eval (Heap.shelfLink shelfNumber options)
               (Heap.exec (Heap.shelfLink shelfNumber options) st)
     = Heap.eval (Heap.shelfLink shelfNumber options) st) /\
  (forall item iconName,
     Heap.valid (Heap.objects st) item = true ->
     (exists fresh,
        Heap.exec (Heap.shelfLinkComponent item iconName) st
        = Heap.mkState (Heap.objects st ++ fresh)%list (Heap.invenioConfig st)) /\
     (forall more config,
        Heap.eval (Heap.shelfLinkComponent item iconName)
                  (Heap.mkState (Heap.objects st ++ more)%list config)
        = Heap.eval (Heap.shelfLinkComponent item iconName) st) /\
     Heap.eval (Heap.shelfLinkComponent item iconName)
               (Heap.exec (Heap.shelfLinkComponent item iconName) st)
     = Heap.eval (Heap.shelfLinkComponent item iconName) st).
Proof.
  destruct st as [h c]. cbn [Heap.objects Heap.invenioConfig]. intros Hc.
  split; [|split].
  - intros item Hv.
    assert (Hany : forall more config,
              Heap.eval (Heap.renderCallNumber item) (Heap.mkState (h ++ more)%list config)
              = Heap.eval (Heap.renderCallNumber item) (Heap.mkState h c)).
    { intros more config.
      rewrite (heap_renderCallNumber_eval h more config item Hc Hv).
      rewrite <- (app_nil_r h) at 2.
      rewrite (heap_renderCallNumber_eval h [] c item Hc Hv). reflexivity. }
    destruct (heap_renderCallNumber_allocates item (Heap.mkState h c)) as [fresh Hf].
    cbn [Heap.objects Heap.invenioConfig] in Hf.
    split; [exists fresh; exact Hf|]. split; [exact Hany|].
    rewrite Hf. apply Hany.
  - intros shelfNumber options Hs Ho.
    rewrite heap_shelfLink_unchanged. split; [reflexivity|]. split; [|reflexivity].
    intros more config. unfold Heap.eval. rewrite !heap_shelfLink_run.
    cbn [fst Heap.objects]. apply heap_link_of_app; assumption.
  - intros item iconName Hv.
    assert (Hany : forall more config,
              Heap.eval (Heap.shelfLinkComponent item iconName)
                        (Heap.mkState (h ++ more)%list config)
              = Heap.eval (Heap.shelfLinkComponent item iconName) (Heap.mkState h c)).
    { intros more config.
      rewrite (heap_shelfLinkComponent_eval h more config item iconName Hc Hv).
      rewrite <- (app_nil_r h) at 2.
      rewrite (heap_shelfLinkComponent_eval h [] c item iconName Hc Hv). reflexivity. }
    destruct (heap_shelfLinkComponent_allocates item iconName (Heap.mkState h c))
      as [fresh Hf].
    cbn [Heap.objects Heap.invenioConfig] in Hf.
    split; [exists fresh; exact Hf|]. split; [exact Hany|].
    rewrite Hf. apply Hany.
Qed.

End HeapPurity.

(** The heap embedding at the sample heap. *)
Example heap_renderCallNumber_sample :
  Heap.eval (Heap.renderCallNumber (E := sample_engine) (L := dotted) (Heap.Ref 3))
            sample_state
  = Heap.Returns (Heap.Str "(QA76)").
Proof. reflexivity. Qed.

Example heap_shelfLink_sample :
  Heap.eval (Heap.shelfLink (E := sample_engine) (Heap.Str "B12") (Heap.Ref 4)) sample_state
  = Heap.Returns
      (Heap.Str ("https://maps.web.cern.ch/?n=['SHELF B12']&popupContent={"
                 ++ dquote ++ "identifiers" ++ dquote ++ ":[{"
                 ++ dquote ++ "scheme" ++ dquote ++ ":" ++ dquote ++ "ISBN" ++ dquote ++ ","
                 ++ dquote ++ "value" ++ dquote ++ ":" ++ dquote ++ "9780131103627" ++ dquote
                 ++ "},{"
                 ++ dquote ++ "scheme" ++ dquote ++ ":" ++ dquote ++ "CALL_NUMBER" ++ dquote ++ ","
                 ++ dquote ++ "value" ++ dquote ++ ":" ++ dquote ++ "QA76" ++ dquote
                 ++ "}],"
                 ++ dquote ++ "shelf" ++ dquote ++ ":" ++ dquote ++ "B12" ++ dquote ++ ","
                 ++ dquote ++ "title" ++ dquote ++ ":" ++ dquote ++ "X" ++ dquote
                 ++ "}&showMenu=false&widgets=&scale=200")).
Proof. reflexivity. Qed.

(** A computation that writes to an object it is given does not only
    allocate: the property is one of the helpers, not of every computation. *)
Lemma heap_tag_item_writes :
  ~ Heap.only_allocates (Heap.tag_item 3 [("shelf", Heap.Str "B12")]).
Proof.
  intros H. destruct (H sample_state) as [fresh Hf].
  apply (f_equal (fun st => Heap.lookup (Heap.objects st) 3)) in Hf.
  cbn [Heap.objects sample_state] in Hf.
  rewrite (heap_lookup_app sample_heap fresh 3) in Hf by (simpl; lia).
  discriminate Hf.
Qed.

Lemma helpers_pure_over_the_heap_witness :
  Heap.closed (Heap.objects sample_state) = true /\
  Heap.valid (Heap.objects sample_state) (Heap.Ref 3) = true /\
  (exists fresh,
     Heap.exec (Heap.shelfLinkComponent (E := sample_engine) (L := dotted)
                  (Heap.Ref 3) Heap.Undefined) sample_state
     = Heap.mkState (sample_heap ++ fresh)%list Heap.Undefined) /\
  Heap.eval (Heap.shelfLinkComponent (E := sample_engine) (L := dotted)
               (Heap.Ref 3) Heap.Undefined)
            (Heap.exec (Heap.shelfLinkComponent (E := sample_engine) (L := dotted)
                          (Heap.Ref 3) Heap.Undefined) sample_state)
  = Heap.eval (Heap.shelfLinkComponent (E := sample_engine) (L := dotted)
                 (Heap.Ref 3) Heap.Undefined) sample_state.
Proof.
  split; [reflexivity|]. split; [reflexivity|].
  destruct (proj2 (proj2 (helpers_pure_over_the_heap (E := sample_engine) (L := dotted)
                            sample_state eq_refl))
                  (Heap.Ref 3) Heap.Undefined eq_refl) as (Hfresh & _ & Hagain).
  split; [exact Hfresh | exact Hagain].
Defined.

Lemma shelfLinkComponent_throws_iff_witness :
  is_primitive (_get (L := dotted) item_null_then_call_number "shelf" VUndefined) = true /\
  is_primitive (getProp item_null_then_call_number "title") = true /\
  eval (shelfLinkComponent (L := dotted) item_null_then_call_number VUndefined)
       (w0 VUndefined)
  = Throw (TypeError "Cannot read properties of null (reading 'scheme')").
Proof.
  split; [reflexivity|]. split; [reflexivity|].
  apply (proj1 (shelfLinkComponent_throws_iff (L := dotted) item_null_then_call_number
                  VUndefined (w0 VUndefined)
                  (TypeError "Cannot read properties of null (reading 'scheme')")
                  eq_refl eq_refl)).
  left. reflexivity.
Defined.
